(** * Suppression directives of the instrumenter: the directive bookkeeper

    A shallow embedding of
    [packages/instrumenter/src/transformers/directive-bookkeeper.ts]
    and the properties of its rule chain, its comment grammar and its
    unused-directive diagnostics.

    Conventions of the embedding.
    - A JavaScript string is a [string]; a character is a code unit of the
      Latin-1 range (one [ascii]).  The character classes of the regular
      expression ([\s], [.]) and of [String.prototype.trim] are the
      ECMAScript ones restricted to that range.
    - [undefined] is [None].
    - Source lines are integers ([Z]).
    - The collector is an interface of which only [collect] is called: it is
      modelled by the list of the calls it received, oldest first.
    - A [TypeError] raised by the non-null assertion [node.loc!] is an
      explicit [Thrown] completion carrying the state reached so far. *)

From Stdlib Require Import String Ascii List ZArith Bool Lia.
Import ListNotations.

Local Open Scope string_scope.
Local Open Scope Z_scope.

(** ** Characters and the string primitives the source calls *)

Module Js.

(** Code unit of a character. *)
Definition code (c : ascii) : N := N_of_ascii c.

Definition inRange (lo hi : N) (c : ascii) : bool :=
  (N.leb lo (code c) && N.leb (code c) hi)%bool.

(** ECMAScript [LineTerminator] below U+0100: LF and CR. *)
Definition isLineTerminator (c : ascii) : bool :=
  (N.eqb (code c) 10 || N.eqb (code c) 13)%bool.

(** ECMAScript [WhiteSpace] below U+0100: TAB, VT, FF, SP, NBSP. *)
Definition isBlank (c : ascii) : bool :=
  (N.eqb (code c) 9 || N.eqb (code c) 11 || N.eqb (code c) 12
   || N.eqb (code c) 32 || N.eqb (code c) 160)%bool.

(** The class [\s], which is also what [trim] strips: white space and line
    terminators. *)
Definition isSpace (c : ascii) : bool :=
  (isBlank c || isLineTerminator c)%bool.

(** The class [.] without the [s] flag: anything but a line terminator. *)
Definition isDot (c : ascii) : bool := negb (isLineTerminator c).

(** The class [[a-zA-Z, ]] of the third group. *)
Definition isNameChar (c : ascii) : bool :=
  (inRange 97 122 c || inRange 65 90 c
   || N.eqb (code c) 44 || N.eqb (code c) 32)%bool.

(** [toLowerCase] on one code unit: A-Z, and the Latin-1 capitals
    U+00C0..U+00DE except the multiplication sign U+00D7. *)
Definition lowerChar (c : ascii) : ascii :=
  if (inRange 65 90 c
      || (inRange 192 222 c && negb (N.eqb (code c) 215)))%bool
  then ascii_of_N (code c + 32)
  else c.

Fixpoint toLowerCase (s : string) : string :=
  match s with
  | EmptyString => EmptyString
  | String c r => String (lowerChar c) (toLowerCase r)
  end.

Fixpoint trimStart (s : string) : string :=
  match s with
  | EmptyString => EmptyString
  | String c r => if isSpace c then trimStart r else s
  end.

Fixpoint trimEnd (s : string) : string :=
  match s with
  | EmptyString => EmptyString
  | String c r =>
      match trimEnd r with
      | EmptyString => if isSpace c then EmptyString else String c EmptyString
      | r' => String c r'
      end
  end.

(** [String.prototype.trim]. *)
Definition trim (s : string) : string := trimEnd (trimStart s).

(** [s.split(',')]: never empty, the empty string gives one empty piece. *)
Fixpoint split (s : string) : list string :=
  match s with
  | EmptyString => [EmptyString]
  | String c r =>
      if N.eqb (code c) 44 then EmptyString :: split r
      else match split r with
           | h :: t => String c h :: t
           | [] => [String c EmptyString]
           end
  end.

(** [xs.includes(x)] on an array of strings. *)
Definition includes (xs : list string) (x : string) : bool :=
  existsb (String.eqb x) xs.

(** Every character of [s] satisfies [p]. *)
Fixpoint allChars (p : ascii -> bool) (s : string) : bool :=
  match s with
  | EmptyString => true
  | String c r => (p c && allChars p r)%bool
  end.

(** Longest prefix of [s] inside the class [p], and what follows it: the
    way a greedy [[...]*] consumes its input. *)
Fixpoint span (p : ascii -> bool) (s : string) : string * string :=
  match s with
  | EmptyString => (EmptyString, EmptyString)
  | String c r =>
      if p c then let '(a, b) := span p r in (String c a, b)
      else (EmptyString, s)
  end.

(** [dropPrefix p s] is what remains of [s] after the literal [p], when [s]
    starts with it. *)
Fixpoint dropPrefix (p s : string) : option string :=
  match p with
  | EmptyString => Some s
  | String a p' =>
      match s with
      | String b s' => if Ascii.eqb a b then dropPrefix p' s' else None
      | EmptyString => None
      end
  end.

End Js.

(** ** The comment grammar

    [/^\s?Stryker (disable|restore)(?: (next-line))? ([a-zA-Z, ]+)(?::(.+)?)?/]

    The matcher follows the backtracking order of the expression: each
    optional or alternative part is tried first in its greedy form and the
    other form is tried only when the rest of the expression fails. *)

Module Grammar.

(** The groups the source destructures out of the match array. *)
Record Match := mkMatch {
  directiveType : string;
  scope : option string;
  mutators : string;
  optionalReason : option string
}.

(** [(?::(.+)?)?]: always succeeds.  The colon is taken when it is there;
    the fourth group takes as many [.] as it can and stays [undefined] when
    there is none. *)
Definition matchReason (s : string) : option string :=
  match s with
  | String c r =>
      if N.eqb (Js.code c) 58 then
        match fst (Js.span Js.isDot r) with
        | EmptyString => None
        | reason => Some reason
        end
      else None
  | EmptyString => None
  end.

(** [ ([a-zA-Z, ]+)(?::(.+)?)?] after the first two groups.  Since what
    follows the third group always succeeds, its greedy first attempt is
    the one kept. *)
Definition matchMutators (directiveType : string) (scope : option string)
    (s : string) : option Match :=
  match Js.dropPrefix " " s with
  | Some s1 =>
      match Js.span Js.isNameChar s1 with
      | (EmptyString, _) => None
      | (names, rest) =>
          Some (mkMatch directiveType scope names (matchReason rest))
      end
  | None => None
  end.

(** [(?: (next-line))?] and the rest: with the scope first, without it when
    that fails. *)
Definition matchScope (directiveType : string) (s : string) : option Match :=
  match
    match Js.dropPrefix " next-line" s with
    | Some s1 => matchMutators directiveType (Some "next-line") s1
    | None => None
    end
  with
  | Some m => Some m
  | None => matchMutators directiveType None s
  end.

(** [(disable|restore)] and the rest, the alternatives in their order. *)
Definition matchDirectiveType (s : string) : option Match :=
  match
    match Js.dropPrefix "disable" s with
    | Some s1 => matchScope "disable" s1
    | None => None
    end
  with
  | Some m => Some m
  | None =>
      match Js.dropPrefix "restore" s with
      | Some s1 => matchScope "restore" s1
      | None => None
      end
  end.

(** [Stryker ] and the rest. *)
Definition matchStryker (s : string) : option Match :=
  match Js.dropPrefix "Stryker " s with
  | Some s1 => matchDirectiveType s1
  | None => None
  end.

(** [strykerCommentDirectiveRegex.exec(value)]: anchored at the start, the
    optional white space first consumed, then not. *)
Definition exec (value : string) : option Match :=
  match
    match value with
    | String c r => if Js.isSpace c then matchStryker r else None
    | EmptyString => None
    end
  with
  | Some m => Some m
  | None => matchStryker value
  end.

End Grammar.

(** ** The rule chain *)

Definition WILDCARD : string := "all".
Definition DEFAULT_REASON : string := "Ignored using a comment".

Definition IgnoreReason : Type := option string.

(** The objects implementing [Rule]: the sentinel [rootRule] and the
    instances of [IgnoreRule], each holding its predecessor.  No field is
    assigned after construction. *)
Inductive Rule : Type :=
| rootRule
| IgnoreRule (mutatorNames : list string) (line : option Z)
    (ignoreReason : IgnoreReason) (previousRule : Rule).

(** [new RestoreRule(...)]: an [IgnoreRule] whose reason is [undefined]. *)
Definition RestoreRule (mutatorNames : list string) (line : option Z)
    (previousRule : Rule) : Rule :=
  IgnoreRule mutatorNames line None previousRule.

Module Rule.

(** [IgnoreRule.matches], on the fields of [this]. *)
Definition matches (mutatorNames : list string) (thisLine : option Z)
    (mutatorName : string) (line : Z) : bool :=
  let lineMatches :=
    match thisLine with
    | None => true
    | Some l => Z.eqb l line
    end in
  let mutatorMatches :=
    (Js.includes mutatorNames mutatorName
     || Js.includes mutatorNames WILDCARD)%bool in
  (lineMatches && mutatorMatches)%bool.

(** [Rule.findIgnoreReason]: the root answers [undefined], an [IgnoreRule]
    answers its reason when it matches and asks its predecessor otherwise. *)
Fixpoint findIgnoreReason (rule : Rule) (mutatorName : string) (line : Z)
    : IgnoreReason :=
  match rule with
  | rootRule => None
  | IgnoreRule mutatorNames thisLine ignoreReason previousRule =>
      if matches mutatorNames thisLine mutatorName line then ignoreReason
      else findIgnoreReason previousRule mutatorName line
  end.

(** The predecessor link of a rule object; the root has none. *)
Definition previousRuleOf (rule : Rule) : option Rule :=
  match rule with
  | rootRule => None
  | IgnoreRule _ _ _ previousRule => Some previousRule
  end.

(** Number of [IgnoreRule] objects on the chain that starts at [rule]. *)
Fixpoint chainLength (rule : Rule) : nat :=
  match rule with
  | rootRule => O
  | IgnoreRule _ _ _ previousRule => S (chainLength previousRule)
  end.

(** Whether [rule] answers a query itself.  The root object has no
    predicate and suppresses nothing: it counts as never matching. *)
Definition ruleMatches (rule : Rule) (mutatorName : string) (line : Z) : bool :=
  match rule with
  | rootRule => false
  | IgnoreRule mutatorNames thisLine _ _ =>
      matches mutatorNames thisLine mutatorName line
  end.

(** The effect of a rule: the reason it answers with when it matches. *)
Definition ruleEffect (rule : Rule) : IgnoreReason :=
  match rule with
  | rootRule => None
  | IgnoreRule _ _ ignoreReason _ => ignoreReason
  end.

(** The same resolution as a machine that performs one method call per
    unit of fuel: [None] when the fuel is exhausted before an answer, and
    otherwise the answer with the number of delegations it took. *)
Fixpoint findIgnoreReasonFuel (fuel : nat) (rule : Rule)
    (mutatorName : string) (line : Z) : option (IgnoreReason * nat) :=
  match fuel with
  | O => None
  | S fuel' =>
      match rule with
      | rootRule => Some (None, O)
      | IgnoreRule mutatorNames thisLine ignoreReason previousRule =>
          if matches mutatorNames thisLine mutatorName line
          then Some (ignoreReason, O)
          else
            match findIgnoreReasonFuel fuel' previousRule mutatorName line with
            | Some (answer, n) => Some (answer, S n)
            | None => None
            end
      end
  end.

End Rule.

(** ** What the bookkeeper consumes and produces *)

Module Ast.

Record Position := mkPosition { line : Z; column : Z }.

Record SourceLocation := mkSourceLocation { start : Position; finish : Position }.

Record Comment := mkComment { value : string }.

(** The part of [types.Node] the bookkeeper reads. *)
Record Node := mkNode {
  leadingComments : option (list Comment);
  loc : option SourceLocation
}.

End Ast.

(** [NodeMutator], of which only [name] is read. *)
Record NodeMutator := mkNodeMutator { name : string }.

(** [new Mutant(id, fileName, original, { mutatorName, ignoreReason,
    replacement })]. *)
Record Mutant := mkMutant {
  mutantId : string;
  mutantFileName : string;
  original : Ast.Node;
  mutatorName : string;
  mutantIgnoreReason : string;
  replacement : Ast.Node
}.

(** The last argument of [collect], here [{ line: -1, position: 0 }]. *)
Record Offset := mkOffset { offsetLine : Z; offsetPosition : Z }.

(** One call [collector.collect(fileName, node, mutant, offset)]. *)
Record CollectCall := mkCollectCall {
  callFileName : string;
  callNode : Ast.Node;
  callMutant : Mutant;
  callOffset : Offset
}.

Definition Collector : Type := list CollectCall.

(** How a method ends: normally, or by a thrown [TypeError]; either way
    with the state it leaves behind. *)
Inductive Completion (A : Type) : Type :=
| Normal (a : A)
| Thrown (a : A).

Arguments Normal {A} a.
Arguments Thrown {A} a.

Definition stateOf {A : Type} (c : Completion A) : A :=
  match c with
  | Normal a => a
  | Thrown a => a
  end.

(** ** The bookkeeper *)

Module DirectiveBookkeeper.

Record t := mk { currentIgnoreRule : Rule }.

(** A new instance: [currentIgnoreRule = rootRule]. *)
Definition create : t := mk rootRule.

(** [mutators.split(',').map((mutator) => mutator.trim().toLowerCase())] *)
Definition mutatorNamesOf (mutators : string) : list string :=
  map (fun mutator => Js.toLowerCase (Js.trim mutator)) (Js.split mutators).

(** [mutators.split(',').map(trim).filter((mutator) => mutator !== WILDCARD)] *)
Definition directivesOf (mutators : string) : list string :=
  filter (fun mutator => negb (String.eqb mutator WILDCARD))
         (map Js.trim (Js.split mutators)).

(** [allMutators.map((x) => x.name.toLowerCase()).includes(directive.toLowerCase())] *)
Definition isKnown (allMutators : list NodeMutator) (directive : string) : bool :=
  Js.includes (map (fun x => Js.toLowerCase (name x)) allMutators)
              (Js.toLowerCase directive).

Definition unusedMessage (directiveType : string) : string :=
  ("Unused 'Stryker " ++ directiveType ++ "' directive")%string.

(** The call made for one unknown name. *)
Definition unusedCall (directiveType : string) (node : Ast.Node)
    (originFileName : string) (directive : string) : CollectCall :=
  mkCollectCall originFileName node
    (mkMutant directive originFileName node directive
       (unusedMessage directiveType) node)
    (mkOffset (-1) 0).

(** The loop [for (const directive of directives)]. *)
Fixpoint reportUnused (directiveType : string) (node : Ast.Node)
    (allMutators : list NodeMutator) (originFileName : string)
    (directives : list string) (collector : Collector) : Collector :=
  match directives with
  | [] => collector
  | directive :: rest =>
      reportUnused directiveType node allMutators originFileName rest
        (if isKnown allMutators directive then collector
         else (collector
               ++ [unusedCall directiveType node originFileName directive])%list)
  end.

Definition isNextLine (scope : option string) : bool :=
  match scope with
  | Some s => String.eqb s "next-line"
  | None => false
  end.

(** The two nested [switch] statements.  [None] is the [TypeError] of
    [node.loc!.start.line] on a node without location. *)
Definition pushRule (directiveType : string) (scope : option string)
    (mutatorNames : list string) (reason : string) (node : Ast.Node)
    (current : Rule) : option Rule :=
  if String.eqb directiveType "disable" then
    if isNextLine scope then
      match Ast.loc node with
      | Some l =>
          Some (IgnoreRule mutatorNames (Some (Ast.line (Ast.start l)))
                  (Some reason) current)
      | None => None
      end
    else Some (IgnoreRule mutatorNames None (Some reason) current)
  else if String.eqb directiveType "restore" then
    if isNextLine scope then
      match Ast.loc node with
      | Some l =>
          Some (RestoreRule mutatorNames (Some (Ast.line (Ast.start l))) current)
      | None => None
      end
    else Some (RestoreRule mutatorNames None current)
  else Some current.

(** [(optionalReason ?? DEFAULT_REASON).trim()] *)
Definition reasonOf (optionalReason : option string) : string :=
  Js.trim match optionalReason with
          | Some r => r
          | None => DEFAULT_REASON
          end.

(** The rule a directive pushes when the call completes normally. *)
Definition pushedRule (m : Grammar.Match) (node : Ast.Node) (current : Rule)
    : option Rule :=
  pushRule (Grammar.directiveType m) (Grammar.scope m)
    (mutatorNamesOf (Grammar.mutators m))
    (reasonOf (Grammar.optionalReason m)) node current.

(** The body of the [forEach] callback for one matched comment. *)
Definition applyDirective (node : Ast.Node) (allMutators : list NodeMutator)
    (originFileName : string) (m : Grammar.Match) (st : t * Collector)
    : Completion (t * Collector) :=
  let '(this, collector) := st in
  let mutatorNames := mutatorNamesOf (Grammar.mutators m) in
  let collector' :=
    reportUnused (Grammar.directiveType m) node allMutators originFileName
      (directivesOf (Grammar.mutators m)) collector in
  let reason := reasonOf (Grammar.optionalReason m) in
  match pushRule (Grammar.directiveType m) (Grammar.scope m) mutatorNames
          reason node (currentIgnoreRule this) with
  | Some rule => Normal (mk rule, collector')
  | None => Thrown (this, collector')
  end.

(** [forEach] over the matches, left to right, stopping at a throw. *)
Fixpoint forEachMatch (node : Ast.Node) (allMutators : list NodeMutator)
    (originFileName : string) (ms : list Grammar.Match) (st : t * Collector)
    : Completion (t * Collector) :=
  match ms with
  | [] => Normal st
  | m :: rest =>
      match applyDirective node allMutators originFileName m st with
      | Normal st' => forEachMatch node allMutators originFileName rest st'
      | Thrown st' => Thrown st'
      end
  end.

(** [.map((comment) => regex.exec(comment.value)).filter(notEmpty)] *)
Fixpoint matchesOf (comments : list Ast.Comment) : list Grammar.Match :=
  match comments with
  | [] => []
  | comment :: rest =>
      match Grammar.exec (Ast.value comment) with
      | Some m => m :: matchesOf rest
      | None => matchesOf rest
      end
  end.

Definition processStrykerDirectives (this : t) (node : Ast.Node)
    (allMutators : list NodeMutator) (collector : Collector)
    (originFileName : string) : Completion (t * Collector) :=
  match Ast.leadingComments node with
  | None => Normal (this, collector)
  | Some comments =>
      forEachMatch node allMutators originFileName (matchesOf comments)
        (this, collector)
  end.

(** The query.  It returns the instance next to the answer, as it leaves
    it: the method assigns no field. *)
Definition findIgnoreReason (this : t) (line : Z) (mutatorName : string)
    : IgnoreReason * t :=
  let mutatorName := Js.toLowerCase mutatorName in
  (Rule.findIgnoreReason (currentIgnoreRule this) mutatorName line, this).

(** The answer alone. *)
Definition ignoreReasonAt (this : t) (line : Z) (mutatorName : string)
    : IgnoreReason :=
  fst (findIgnoreReason this line mutatorName).

(** Queries issued one after the other with no other call in between:
    the answers, oldest first, and the instance at the end. *)
Fixpoint findIgnoreReasons (queries : list (Z * string)) (this : t)
    : list IgnoreReason * t :=
  match queries with
  | [] => ([], this)
  | (line, mutatorName) :: rest =>
      let '(answer, this') := findIgnoreReason this line mutatorName in
      let '(answers, this'') := findIgnoreReasons rest this' in
      (answer :: answers, this'')
  end.

(** The diagnostics of one matched comment. *)
Definition diagnosticsOf (node : Ast.Node) (allMutators : list NodeMutator)
    (originFileName : string) (m : Grammar.Match) : list CollectCall :=
  map (unusedCall (Grammar.directiveType m) node originFileName)
    (filter (fun directive => negb (isKnown allMutators directive))
       (directivesOf (Grammar.mutators m))).

(** The arguments of one call of [processStrykerDirectives]. *)
Record ProcessCall := mkProcessCall {
  argNode : Ast.Node;
  argAllMutators : list NodeMutator;
  argOriginFileName : string
}.

(** A finite sequence of calls on one instance and one collector, each
    call continuing from the state the previous one left, however it
    ended. *)
Fixpoint processAll (calls : list ProcessCall) (st : t * Collector)
    : t * Collector :=
  match calls with
  | [] => st
  | call :: rest =>
      processAll rest
        (stateOf (processStrykerDirectives (fst st) (argNode call)
                    (argAllMutators call) (snd st) (argOriginFileName call)))
  end.

(** Number of leading comments of a node. *)
Definition commentCount (node : Ast.Node) : nat :=
  match Ast.leadingComments node with
  | Some comments => length comments
  | None => O
  end.

(** Number of leading comments over a sequence of calls. *)
Fixpoint commentTotal (calls : list ProcessCall) : nat :=
  match calls with
  | [] => O
  | call :: rest => (commentCount (argNode call) + commentTotal rest)%nat
  end.

(** The entry of [chainRules] for the rule that the directive [m] pushes
    when it annotates [node]. *)
Definition entryOf (node : Ast.Node) (m : Grammar.Match)
    : list string * option Z * IgnoreReason :=
  (mutatorNamesOf (Grammar.mutators m),
   if isNextLine (Grammar.scope m)
   then option_map (fun l => Ast.line (Ast.start l)) (Ast.loc node)
   else None,
   if String.eqb (Grammar.directiveType m) "disable"
   then Some (reasonOf (Grammar.optionalReason m))
   else None).

(** [entry] is the rule of a directive comment of one of the [calls]. *)
Definition pushedBy (calls : list ProcessCall)
    (entry : list string * option Z * IgnoreReason) : Prop :=
  exists call comments m,
    In call calls
    /\ Ast.leadingComments (argNode call) = Some comments
    /\ In m (matchesOf comments)
    /\ entry = entryOf (argNode call) m
    /\ (isNextLine (Grammar.scope m) = true -> Ast.loc (argNode call) <> None).

End DirectiveBookkeeper.

(** A node at [line] with the given comment values as leading comments. *)
Definition nodeAt (l : Z) (comments : list string) : Ast.Node :=
  Ast.mkNode (Some (map Ast.mkComment comments))
    (Some (Ast.mkSourceLocation (Ast.mkPosition l 0) (Ast.mkPosition l 0))).

(** The text of a disable directive that has a colon after its names:
    [lead] is what precedes the keyword, [afterColon] all that follows the
    colon. *)
Definition disableComment (lead : string) (nextLine : bool)
    (names afterColon : string) : string :=
  lead ++ "Stryker disable" ++ (if nextLine then " next-line" else "")
       ++ " " ++ names ++ ":" ++ afterColon.

(** Line feed. *)
Definition LF : string := String (ascii_of_N 10) EmptyString.

(** The text of a directive as the grammar reads it: [lead] before the
    keyword, then the kind, the scope, the names and, after a colon, the
    reason when there is one. *)
Definition directiveText (lead kind : string) (nextLine : bool)
    (names : string) (reason : option string) : string :=
  lead ++ "Stryker " ++ kind ++ (if nextLine then " next-line" else "")
       ++ " " ++ names
       ++ match reason with
          | Some r => ":" ++ r
          | None => ""
          end.

(** The rules of a chain, newest first: for each one the names and the line
    its predicate reads, and its effect. *)
Fixpoint chainRules (rule : Rule)
    : list (list string * option Z * IgnoreReason) :=
  match rule with
  | rootRule => []
  | IgnoreRule mutatorNames line ignoreReason previousRule =>
      (mutatorNames, line, ignoreReason) :: chainRules previousRule
  end.

(** The predicate of one entry of [chainRules]. *)
Definition entryMatches (mutatorName : string) (line : Z)
    (entry : list string * option Z * IgnoreReason) : bool :=
  Rule.matches (fst (fst entry)) (snd (fst entry)) mutatorName line.

(** The rule reached from [rule] by following [k] predecessor links. *)
Fixpoint nthPrevious (k : nat) (rule : Rule) : option Rule :=
  match k with
  | O => Some rule
  | S k' =>
      match Rule.previousRuleOf rule with
      | Some previous => nthPrevious k' previous
      | None => None
      end
  end.

(** Whether the rule that the directive [m] pushes when it annotates
    [node] matches a query. *)
Definition directiveMatches (node : Ast.Node) (m : Grammar.Match)
    (mutatorName : string) (line : Z) : bool :=
  entryMatches (Js.toLowerCase mutatorName) line
    (DirectiveBookkeeper.entryOf node m).

(** The directives accepted over a sequence of calls, in the order they are
    processed, each with the node it annotates. *)
Definition directivesIn (calls : list DirectiveBookkeeper.ProcessCall)
    : list (Ast.Node * Grammar.Match) :=
  flat_map
    (fun call =>
       map (pair (DirectiveBookkeeper.argNode call))
         match Ast.leadingComments (DirectiveBookkeeper.argNode call) with
         | Some comments => DirectiveBookkeeper.matchesOf comments
         | None => []
         end)
    calls.

(** Every next-line directive of the calls annotates a node that has a
    location: the condition under which none of them throws. *)
Definition neverThrows (calls : list DirectiveBookkeeper.ProcessCall) : Prop :=
  Forall (fun d => Grammar.scope (snd d) = Some "next-line" ->
                   Ast.loc (fst d) <> None)
         (directivesIn calls).

(** Whether a completion is the normal one. *)
Definition isNormal {A : Type} (c : Completion A) : bool :=
  match c with
  | Normal _ => true
  | Thrown _ => false
  end.

(** ** The grammar on examples *)

Example exec_default :
  Grammar.exec " Stryker disable next-line StringLiteral"
  = Some (Grammar.mkMatch "disable" (Some "next-line") "StringLiteral" None).
Proof. reflexivity. Qed.

Example exec_reason :
  Grammar.exec " Stryker disable StringLiteral: known issue"
  = Some (Grammar.mkMatch "disable" None "StringLiteral" (Some " known issue")).
Proof. reflexivity. Qed.

Example exec_scope_backtracks :
  Grammar.exec "Stryker restore next-line"
  = Some (Grammar.mkMatch "restore" None "next" None).
Proof. reflexivity. Qed.

Example exec_no_match :
  Grammar.exec " eslint-disable next-line" = None.
Proof. reflexivity. Qed.

(** ** Basic facts on the string primitives *)

Lemma trimStart_allSpace (s : string) :
  Js.allChars Js.isSpace s = true -> Js.trimStart s = "".
Proof.
  induction s as [|c r IH]; simpl; [reflexivity|].
  intros H. apply andb_prop in H as [Hc Hr].
  rewrite Hc. exact (IH Hr).
Qed.

Lemma trim_allSpace (s : string) :
  Js.allChars Js.isSpace s = true -> Js.trim s = "".
Proof.
  intros H. unfold Js.trim. rewrite (trimStart_allSpace s H). reflexivity.
Qed.

Lemma allChars_span (p q : ascii -> bool) (s : string) :
  Js.allChars p s = true -> Js.allChars p (fst (Js.span q s)) = true.
Proof.
  induction s as [|c r IH]; simpl; [reflexivity|].
  intros H. apply andb_prop in H as [Hc Hr].
  destruct (q c); [|reflexivity].
  specialize (IH Hr). destruct (Js.span q r) as [a b]. simpl in *.
  rewrite Hc. exact IH.
Qed.

Lemma span_app_stop (p : ascii -> bool) (s : string) (c : ascii) (t : string) :
  Js.allChars p s = true -> p c = false ->
  Js.span p (s ++ String c t) = (s, String c t).
Proof.
  intros Hs Hc. induction s as [|a r IH]; simpl.
  - rewrite Hc. reflexivity.
  - simpl in Hs. apply andb_prop in Hs as [Ha Hr].
    rewrite Ha, (IH Hr). reflexivity.
Qed.

Lemma includes_cons (x y : string) (xs : list string) :
  Js.includes (y :: xs) x = (String.eqb x y || Js.includes xs x)%bool.
Proof. reflexivity. Qed.

(** ** Basic facts on the rule chain *)

(** The first match decides, whatever the older rules are. *)
Lemma findIgnoreReason_match (rule : Rule) (mutatorName : string) (line : Z) :
  Rule.ruleMatches rule mutatorName line = true ->
  Rule.findIgnoreReason rule mutatorName line = Rule.ruleEffect rule.
Proof.
  destruct rule as [|names l r prev]; simpl; [discriminate|].
  intros ->. reflexivity.
Qed.

(** A rule that does not match is transparent. *)
Lemma findIgnoreReason_skip names l r prev (mutatorName : string) (line : Z) :
  Rule.matches names l mutatorName line = false ->
  Rule.findIgnoreReason (IgnoreRule names l r prev) mutatorName line
  = Rule.findIgnoreReason prev mutatorName line.
Proof. simpl. intros ->. reflexivity. Qed.

Lemma matches_line names l (mutatorName : string) (line : Z) :
  Rule.matches names (Some l) mutatorName line = true -> line = l.
Proof.
  unfold Rule.matches. intros H. apply andb_prop in H as [H _].
  apply Z.eqb_eq in H. symmetry. exact H.
Qed.

Lemma matches_fileWide names (mutatorName : string) (line : Z) :
  Rule.matches names None mutatorName line
  = (Js.includes names mutatorName || Js.includes names WILDCARD)%bool.
Proof. reflexivity. Qed.

(** ** Basic facts on the bookkeeper *)

Import DirectiveBookkeeper.

(** A node with one leading comment that is a directive runs the callback
    once. *)
Lemma process_single this node allMutators collector originFileName c m :
  Ast.leadingComments node = Some [Ast.mkComment c] ->
  Grammar.exec c = Some m ->
  processStrykerDirectives this node allMutators collector originFileName
  = applyDirective node allMutators originFileName m (this, collector).
Proof.
  intros Hc Hm. unfold processStrykerDirectives. rewrite Hc.
  cbn [matchesOf Ast.value]. rewrite Hm. cbn [forEachMatch].
  destruct (applyDirective node allMutators originFileName m (this, collector));
    reflexivity.
Qed.

Lemma applyDirective_normal node allMutators originFileName m this collector rule :
  pushedRule m node (currentIgnoreRule this) = Some rule ->
  applyDirective node allMutators originFileName m (this, collector)
  = Normal (mk rule,
            reportUnused (Grammar.directiveType m) node allMutators
              originFileName (directivesOf (Grammar.mutators m)) collector).
Proof.
  unfold pushedRule, applyDirective. intros ->. reflexivity.
Qed.

Lemma applyDirective_inv node allMutators originFileName m this collector
    this' collector' :
  applyDirective node allMutators originFileName m (this, collector)
  = Normal (this', collector') ->
  pushedRule m node (currentIgnoreRule this) = Some (currentIgnoreRule this')
  /\ collector'
     = reportUnused (Grammar.directiveType m) node allMutators
         originFileName (directivesOf (Grammar.mutators m)) collector.
Proof.
  unfold pushedRule, applyDirective.
  destruct (pushRule _ _ _ _ _ _) as [rule|]; [|discriminate].
  intros H. injection H as <- <-. split; reflexivity.
Qed.

(** What the regular expression can put in its first two groups. *)
Lemma exec_groups c m :
  Grammar.exec c = Some m ->
  (Grammar.directiveType m = "disable" \/ Grammar.directiveType m = "restore")
  /\ (Grammar.scope m = None \/ Grammar.scope m = Some "next-line").
Proof.
  assert (Hmut : forall d sc s m', Grammar.matchMutators d sc s = Some m' ->
            Grammar.directiveType m' = d /\ Grammar.scope m' = sc).
  { intros d sc s m'. unfold Grammar.matchMutators.
    destruct (Js.dropPrefix " " s) as [s1|]; [|discriminate].
    destruct (Js.span Js.isNameChar s1) as [[|a names] rest]; [discriminate|].
    intros H. injection H as <-. split; reflexivity. }
  assert (Hsc : forall d s m', Grammar.matchScope d s = Some m' ->
            Grammar.directiveType m' = d
            /\ (Grammar.scope m' = None \/ Grammar.scope m' = Some "next-line")).
  { intros d s m'. unfold Grammar.matchScope.
    destruct (Js.dropPrefix " next-line" s) as [s1|].
    - destruct (Grammar.matchMutators d (Some "next-line") s1) as [m1|] eqn:E.
      + intros H. injection H as <-. apply Hmut in E as [-> ->]. auto.
      + intros H. apply Hmut in H as [-> ->]. auto.
    - intros H. apply Hmut in H as [-> ->]. auto. }
  assert (Hty : forall s m', Grammar.matchDirectiveType s = Some m' ->
            (Grammar.directiveType m' = "disable"
             \/ Grammar.directiveType m' = "restore")
            /\ (Grammar.scope m' = None \/ Grammar.scope m' = Some "next-line")).
  { intros s m'. unfold Grammar.matchDirectiveType.
    destruct (Js.dropPrefix "disable" s) as [s1|].
    - destruct (Grammar.matchScope "disable" s1) as [m1|] eqn:E.
      + intros H. injection H as <-. apply Hsc in E as [-> ?]. auto.
      + destruct (Js.dropPrefix "restore" s) as [s2|]; [|discriminate].
        intros H. apply Hsc in H as [-> ?]. auto.
    - destruct (Js.dropPrefix "restore" s) as [s2|]; [|discriminate].
      intros H. apply Hsc in H as [-> ?]. auto. }
  assert (Hst : forall s m', Grammar.matchStryker s = Some m' ->
            (Grammar.directiveType m' = "disable"
             \/ Grammar.directiveType m' = "restore")
            /\ (Grammar.scope m' = None \/ Grammar.scope m' = Some "next-line")).
  { intros s m'. unfold Grammar.matchStryker.
    destruct (Js.dropPrefix "Stryker " s) as [s1|]; [|discriminate].
    apply Hty. }
  unfold Grammar.exec. destruct c as [|a r].
  - apply Hst.
  - destruct (Js.isSpace a).
    + destruct (Grammar.matchStryker r) as [m1|] eqn:E.
      * intros H. injection H as <-. exact (Hst _ _ E).
      * apply Hst.
    + apply Hst.
Qed.

(** ** Unused-directive diagnostics *)

(** What every call made by the bookkeeper for [node] looks like. *)
Lemma reportUnused_appends directiveType node allMutators originFileName
    directives collector :
  exists added,
    reportUnused directiveType node allMutators originFileName directives
      collector
    = (collector ++ added)%list
    /\ Forall (fun call => callNode call = node
                           /\ callOffset call = mkOffset (-1) 0) added.
Proof.
  revert collector.
  induction directives as [|directive rest IH]; intros collector; simpl.
  - exists []. rewrite app_nil_r. split; [reflexivity|constructor].
  - destruct (isKnown allMutators directive).
    + apply IH.
    + destruct (IH (collector
                    ++ [unusedCall directiveType node originFileName directive])%list)
        as [added [E F]].
      exists (unusedCall directiveType node originFileName directive :: added).
      split.
      * rewrite E, <- app_assoc. reflexivity.
      * constructor; [split; reflexivity|exact F].
Qed.

Lemma forEachMatch_appends node allMutators originFileName ms st :
  exists added,
    snd (stateOf (forEachMatch node allMutators originFileName ms st))
    = (snd st ++ added)%list
    /\ Forall (fun call => callNode call = node
                           /\ callOffset call = mkOffset (-1) 0) added.
Proof.
  revert st. induction ms as [|m rest IH]; intros [this collector].
  - exists []. simpl. rewrite app_nil_r. split; [reflexivity|constructor].
  - cbn [forEachMatch]. unfold applyDirective.
    destruct (reportUnused_appends (Grammar.directiveType m) node allMutators
                originFileName (directivesOf (Grammar.mutators m)) collector)
      as [added1 [E1 F1]].
    rewrite E1.
    destruct (pushRule _ _ _ _ _ _) as [rule|].
    + destruct (IH (mk rule, (collector ++ added1)%list)) as [added2 [E2 F2]].
      exists (added1 ++ added2)%list. cbv beta iota. split.
      * etransitivity; [exact E2|]. cbn [snd]. rewrite app_assoc. reflexivity.
      * apply Forall_app. split; assumption.
    + exists added1. split; [reflexivity|exact F1].
Qed.

(** C3, as amended. The location handed to the collector with an
    unused-directive diagnostic is the constant [{ line: -1, position: 0 }],
    next to the annotated node itself: its line field is -1 whatever the
    starting line of the node, an offset of one line up that is left to the
    collector to apply. *)
Theorem unused_diagnostic_offset this node allMutators collector originFileName :
  exists added,
    snd (stateOf (processStrykerDirectives this node allMutators collector
                    originFileName))
    = (collector ++ added)%list
    /\ Forall (fun call => callNode call = node
                           /\ callOffset call = mkOffset (-1) 0) added.
Proof.
  unfold processStrykerDirectives.
  destruct (Ast.leadingComments node) as [comments|].
  - apply (forEachMatch_appends node allMutators originFileName
             (matchesOf comments) (this, collector)).
  - exists []. simpl. rewrite app_nil_r. split; [reflexivity|constructor].
Qed.

(** C3, as stated, fails: for a node starting at line 10 the line field
    handed to the collector is -1, not 9. *)
Lemma unused_diagnostic_line_is_not_node_line_minus_one :
  exists call,
    snd (stateOf (processStrykerDirectives create
                    (nodeAt 10 [" Stryker disable Typofied"])
                    [mkNodeMutator "StringLiteral"] [] "src/app.js"))
    = [call]
    /\ Ast.loc (callNode call)
       = Some (Ast.mkSourceLocation (Ast.mkPosition 10 0) (Ast.mkPosition 10 0))
    /\ offsetLine (callOffset call) = -1
    /\ offsetLine (callOffset call) <> 10 - 1.
Proof.
  eexists. split; [reflexivity|].
  split; [reflexivity|]. split; [reflexivity|]. discriminate.
Qed.

(** C4, on the input where the code departs from it. The token [All] goes
    through the name check, the filter comparing it to the wildcard without
    folding its case, and is reported as unused although the rule pushed
    for it holds the folded [all] and suppresses every mutator at every
    line. *)
Theorem capitalised_wildcard_is_reported_unused :
  let node := nodeAt 1 [" Stryker disable All"] in
  processStrykerDirectives create node [mkNodeMutator "StringLiteral"] []
    "src/app.js"
  = Normal (mk (IgnoreRule ["all"] None (Some DEFAULT_REASON) rootRule),
            [unusedCall "disable" node "src/app.js" "All"])
  /\ mutantIgnoreReason (callMutant (unusedCall "disable" node "src/app.js" "All"))
     = "Unused 'Stryker disable' directive"
  /\ (forall line mutatorName,
        ignoreReasonAt
          (mk (IgnoreRule ["all"] None (Some DEFAULT_REASON) rootRule))
          line mutatorName
        = Some DEFAULT_REASON)
  /\ snd (stateOf (processStrykerDirectives create
                     (nodeAt 1 [" Stryker disable all"])
                     [mkNodeMutator "StringLiteral"] [] "src/app.js"))
     = [].
Proof.
  cbv zeta. split; [reflexivity|]. split; [reflexivity|].
  split; [|reflexivity].
  intros line mutatorName.
  unfold ignoreReasonAt, DirectiveBookkeeper.findIgnoreReason. cbn [fst].
  cbn [currentIgnoreRule Rule.findIgnoreReason]. rewrite matches_fileWide.
  replace (Js.includes ["all"] WILDCARD) with true by reflexivity.
  rewrite orb_true_r. reflexivity.
Qed.

(** ** Scope of a pushed rule *)

(** C5, as stated, fails on its last part: a file-wide directive on a node
    at line 10 changes the answer for line 3, a line before it. *)
Lemma fileWide_rule_reaches_earlier_lines :
  exists this' collector',
    processStrykerDirectives create (nodeAt 10 [" Stryker disable all"])
      [mkNodeMutator "StringLiteral"] [] "src/app.js"
    = Normal (this', collector')
    /\ ignoreReasonAt create 3 "StringLiteral" = None
    /\ ignoreReasonAt this' 3 "StringLiteral" = Some "Ignored using a comment".
Proof.
  eexists _, _. split; [reflexivity|]. split; reflexivity.
Qed.

(** ** One unknown name *)

(** C7, as stated, fails on the wildcard: [all] is a single token that no
    registered mutator has as its name, and no diagnostic is reported. *)
Lemma single_wildcard_token_is_not_reported :
  Grammar.exec " Stryker disable all"
  = Some (Grammar.mkMatch "disable" None "all" None)
  /\ Js.split "all" = ["all"]
  /\ isKnown [mkNodeMutator "StringLiteral"; mkNodeMutator "BooleanLiteral"]
       (Js.trim "all") = false
  /\ processStrykerDirectives create (nodeAt 8 [" Stryker disable all"])
       [mkNodeMutator "StringLiteral"; mkNodeMutator "BooleanLiteral"] []
       "src/app.js"
     = Normal (mk (IgnoreRule ["all"] None (Some DEFAULT_REASON) rootRule), []).
Proof. repeat split; reflexivity. Qed.

(** ** Termination of the resolution *)

Lemma fuel_suffices (rule : Rule) (fuel : nat) (mutatorName : string) (line : Z) :
  (Rule.chainLength rule < fuel)%nat ->
  exists n,
    Rule.findIgnoreReasonFuel fuel rule mutatorName line
    = Some (Rule.findIgnoreReason rule mutatorName line, n)
    /\ (n <= Rule.chainLength rule)%nat.
Proof.
  revert fuel. induction rule as [|names l r prev IH]; intros fuel Hf.
  - destruct fuel as [|fuel]; [inversion Hf|].
    exists O. split; [reflexivity|apply Nat.le_refl].
  - destruct fuel as [|fuel]; [inversion Hf|].
    cbn [Rule.chainLength] in *. cbn [Rule.findIgnoreReasonFuel Rule.findIgnoreReason].
    destruct (Rule.matches names l mutatorName line).
    + exists O. split; [reflexivity|apply Nat.le_0_l].
    + destruct (IH fuel) as [n [E Hn]]; [lia|].
      rewrite E. exists (S n). split; [reflexivity|lia].
Qed.

Lemma pushRule_length directiveType scope names reason node current rule :
  pushRule directiveType scope names reason node current = Some rule ->
  (Rule.chainLength rule <= S (Rule.chainLength current))%nat.
Proof.
  unfold pushRule, RestoreRule.
  destruct (String.eqb directiveType "disable");
    [|destruct (String.eqb directiveType "restore")];
    try destruct (isNextLine scope);
    try destruct (Ast.loc node);
    intros H; try discriminate; injection H as <-; cbn [Rule.chainLength]; lia.
Qed.

Lemma forEachMatch_length node allMutators originFileName ms st :
  (Rule.chainLength
     (currentIgnoreRule
        (fst (stateOf (forEachMatch node allMutators originFileName ms st))))
   <= Rule.chainLength (currentIgnoreRule (fst st)) + length ms)%nat.
Proof.
  revert st. induction ms as [|m rest IH]; intros [this collector].
  - simpl. lia.
  - cbn [forEachMatch length]. unfold applyDirective.
    destruct (pushRule _ _ _ _ _ _) as [rule|] eqn:E.
    + cbv beta iota. etransitivity; [apply IH|].
      apply pushRule_length in E. cbn [fst currentIgnoreRule]. lia.
    + simpl. lia.
Qed.

Lemma matchesOf_length comments :
  (length (matchesOf comments) <= length comments)%nat.
Proof.
  induction comments as [|comment rest IH]; simpl; [lia|].
  destruct (Grammar.exec (Ast.value comment)); simpl; lia.
Qed.

Lemma processAll_length calls st :
  (Rule.chainLength (currentIgnoreRule (fst (processAll calls st)))
   <= Rule.chainLength (currentIgnoreRule (fst st)) + commentTotal calls)%nat.
Proof.
  revert st. induction calls as [|call rest IH]; intros st.
  - simpl. lia.
  - cbn [processAll commentTotal]. etransitivity; [apply IH|].
    unfold processStrykerDirectives, commentCount.
    destruct (Ast.leadingComments (argNode call)) as [comments|].
    + pose proof (forEachMatch_length (argNode call) (argAllMutators call)
                    (argOriginFileName call) (matchesOf comments)
                    (fst st, snd st)) as H.
      pose proof (matchesOf_length comments). cbn [fst] in H. lia.
    + simpl. lia.
Qed.

(** C8. On the chain of any instance obtained from a new one by a finite
    sequence of [processStrykerDirectives] calls, every query ends: run as
    one method call per unit of fuel, it answers within one call more than
    the chain has rules, the number of delegations being at most the number
    of rules, itself at most the number of comments processed.  A rule that
    does not match hands the query to its predecessor and to nothing else;
    the root has no predecessor, never matches and answers [undefined]. *)
Theorem resolution_terminates (calls : list ProcessCall) (line : Z)
    (mutatorName : string) :
  let this := fst (processAll calls (create, [])) in
  (exists n,
     Rule.findIgnoreReasonFuel (S (Rule.chainLength (currentIgnoreRule this)))
       (currentIgnoreRule this) (Js.toLowerCase mutatorName) line
     = Some (ignoreReasonAt this line mutatorName, n)
     /\ (n <= Rule.chainLength (currentIgnoreRule this))%nat)
  /\ (Rule.chainLength (currentIgnoreRule this) <= commentTotal calls)%nat
  /\ (forall rule previous q l,
        Rule.previousRuleOf rule = Some previous ->
        Rule.ruleMatches rule q l = false ->
        Rule.findIgnoreReason rule q l = Rule.findIgnoreReason previous q l)
  /\ Rule.previousRuleOf rootRule = None
  /\ (forall q l, Rule.ruleMatches rootRule q l = false)
  /\ (forall q l, Rule.findIgnoreReason rootRule q l = None)
  /\ (forall q l, Rule.findIgnoreReasonFuel 1 rootRule q l = Some (None, O)).
Proof.
  intros this. split; [|split; [|split]].
  - apply fuel_suffices. lia.
  - exact (processAll_length calls (create, [])).
  - intros [|names l0 r prev] previous q l Hp Hm; [discriminate|].
    injection Hp as <-. apply findIgnoreReason_skip. exact Hm.
  - repeat split; reflexivity.
Qed.

(** ** Queries do not change the instance *)

(** C9. Any number of queries in a row, with no call of
    [processStrykerDirectives] in between, leave the instance as it was and
    each gets the answer it would get alone; in particular the same query
    repeated [n] times gets the same answer [n] times. *)
Theorem queries_are_repeatable (this : t) :
  (forall line mutatorName,
     snd (DirectiveBookkeeper.findIgnoreReason this line mutatorName) = this)
  /\ (forall queries,
        findIgnoreReasons queries this
        = (map (fun q => ignoreReasonAt this (fst q) (snd q)) queries, this))
  /\ (forall n line mutatorName,
        findIgnoreReasons (repeat (line, mutatorName) n) this
        = (repeat (ignoreReasonAt this line mutatorName) n, this)).
Proof.
  assert (H : forall queries,
            findIgnoreReasons queries this
            = (map (fun q => ignoreReasonAt this (fst q) (snd q)) queries, this)).
  { induction queries as [|[line q] rest IH]; [reflexivity|].
    cbn [findIgnoreReasons]. unfold DirectiveBookkeeper.findIgnoreReason at 1.
    rewrite IH. reflexivity. }
  split; [reflexivity|]. split; [exact H|].
  intros n line q. rewrite H. f_equal.
  induction n as [|n IH]; [reflexivity|].
  cbn [repeat map fst snd]. rewrite IH. reflexivity.
Qed.

(** ** A reason made of white space *)

Lemma dropPrefix_app (p s : string) : Js.dropPrefix p (p ++ s) = Some s.
Proof.
  induction p as [|a p IH]; [reflexivity|].
  cbn [append Js.dropPrefix]. rewrite Ascii.eqb_refl. exact IH.
Qed.

(** Names of the third group cannot be taken for the scope keyword: the
    hyphen is outside their class and the colon that ends them is not a
    letter. *)
Lemma names_are_not_scope (names t : string) :
  Js.allChars Js.isNameChar names = true ->
  Js.dropPrefix "next-line" (names ++ String ":" t) = None.
Proof.
  intros H.
  destruct names as [|c1 [|c2 [|c3 [|c4 [|c5 r]]]]];
    cbn [append Js.dropPrefix];
    repeat match goal with
           | |- context [Ascii.eqb ?a ?b] =>
               let E := fresh "E" in
               destruct (Ascii.eqb a b) eqn:E; [|reflexivity];
               apply Ascii.eqb_eq in E; try discriminate E; try subst b
           end;
    try reflexivity.
  cbv in H. discriminate H.
Qed.

Lemma matchMutators_names directiveType scope names t :
  names <> "" ->
  Js.allChars Js.isNameChar names = true ->
  Grammar.matchMutators directiveType scope (" " ++ names ++ String ":" t)
  = Some (Grammar.mkMatch directiveType scope names
            (Grammar.matchReason (String ":" t))).
Proof.
  intros Hne Hn. unfold Grammar.matchMutators.
  rewrite dropPrefix_app, (span_app_stop _ _ _ _ Hn) by reflexivity.
  destruct names; [contradiction|reflexivity].
Qed.

(** The groups of a disable directive with a colon after its names. *)
Lemma exec_disableComment lead nextLine names afterColon :
  Js.allChars Js.isSpace lead = true ->
  (String.length lead <= 1)%nat ->
  names <> "" ->
  Js.allChars Js.isNameChar names = true ->
  Grammar.exec (disableComment lead nextLine names afterColon)
  = Some (Grammar.mkMatch "disable"
            (if nextLine then Some "next-line" else None) names
            (Grammar.matchReason (String ":" afterColon))).
Proof.
  intros Hl Hlen Hne Hn.
  assert (S : Grammar.matchStryker
                ("Stryker disable" ++ (if nextLine then " next-line" else "")
                 ++ " " ++ names ++ ":" ++ afterColon)
              = Some (Grammar.mkMatch "disable"
                        (if nextLine then Some "next-line" else None) names
                        (Grammar.matchReason (String ":" afterColon)))).
  { unfold Grammar.matchStryker.
    change ("Stryker disable" ++ ?x) with ("Stryker " ++ "disable" ++ x).
    rewrite dropPrefix_app. unfold Grammar.matchDirectiveType.
    rewrite dropPrefix_app. unfold Grammar.matchScope.
    destruct nextLine.
    - rewrite dropPrefix_app.
      change (":" ++ afterColon) with (String ":" afterColon).
      rewrite (matchMutators_names _ _ _ _ Hne Hn). reflexivity.
    - change ("" ++ ?x) with x.
      change (":" ++ afterColon) with (String ":" afterColon).
      change (Js.dropPrefix " next-line" (" " ++ ?x))
        with (Js.dropPrefix "next-line" x).
      rewrite (names_are_not_scope _ _ Hn).
      rewrite (matchMutators_names _ _ _ _ Hne Hn). reflexivity. }
  unfold disableComment.
  destruct lead as [|c [|c' lead]].
  - change ("" ++ ?x) with x. rewrite <- S. reflexivity.
  - cbn [Js.allChars] in Hl. apply andb_prop in Hl as [Hc _].
    change (String c "" ++ ?x) with (String c x).
    unfold Grammar.exec. cbv beta iota. rewrite Hc, S. reflexivity.
  - simpl in Hlen. lia.
Qed.

(** C10, as stated, fails when the white space after the colon starts with
    a line terminator: the fourth group captures nothing and the rule gets
    the default reason. *)
Lemma line_feed_after_colon_gives_default_reason :
  Js.allChars Js.isSpace LF = true
  /\ Grammar.exec (disableComment " " false "Foo" LF)
     = Some (Grammar.mkMatch "disable" None "Foo" None)
  /\ processStrykerDirectives create
       (nodeAt 4 [disableComment " " false "Foo" LF])
       [mkNodeMutator "Foo"] [] "src/app.js"
     = Normal (mk (IgnoreRule ["foo"] None (Some "Ignored using a comment")
                     rootRule), [])
  /\ ignoreReasonAt
       (mk (IgnoreRule ["foo"] None (Some "Ignored using a comment") rootRule))
       4 "Foo"
     = Some "Ignored using a comment"
  /\ Some "Ignored using a comment" <> Some "".
Proof. repeat split; try reflexivity. discriminate. Qed.

(** * Further properties of the bookkeeper *)

(** ** The grammar: what it accepts and what it returns *)

Lemma span_allChars (p : ascii -> bool) (s : string) :
  Js.allChars p (fst (Js.span p s)) = true.
Proof.
  induction s as [|c r IH]; simpl; [reflexivity|].
  destruct (p c) eqn:E; [|reflexivity].
  destruct (Js.span p r) as [a b]. simpl in *. rewrite E. exact IH.
Qed.

Lemma span_all (p : ascii -> bool) (s : string) :
  Js.allChars p s = true -> Js.span p s = (s, "").
Proof.
  induction s as [|c r IH]; simpl; [reflexivity|].
  intros H. apply andb_prop in H as [Hc Hr].
  rewrite Hc, (IH Hr). reflexivity.
Qed.

Lemma matchReason_some (s r : string) :
  Grammar.matchReason s = Some r -> r <> "" /\ Js.allChars Js.isDot r = true.
Proof.
  unfold Grammar.matchReason. destruct s as [|c t]; [discriminate|].
  destruct (N.eqb (Js.code c) 58); [|discriminate].
  pose proof (span_allChars Js.isDot t) as H.
  destruct (fst (Js.span Js.isDot t)) as [|a u]; [discriminate|].
  intros E. injection E as <-. split; [discriminate|exact H].
Qed.

Lemma matchMutators_some directiveType scope s m :
  Grammar.matchMutators directiveType scope s = Some m ->
  Grammar.mutators m <> ""
  /\ Js.allChars Js.isNameChar (Grammar.mutators m) = true
  /\ (forall r, Grammar.optionalReason m = Some r ->
                r <> "" /\ Js.allChars Js.isDot r = true).
Proof.
  unfold Grammar.matchMutators.
  destruct (Js.dropPrefix " " s) as [s1|]; [|discriminate].
  pose proof (span_allChars Js.isNameChar s1) as H.
  destruct (Js.span Js.isNameChar s1) as [[|a names] rest]; [discriminate|].
  intros E. injection E as <-. cbn [Grammar.mutators Grammar.optionalReason].
  split; [discriminate|]. split; [exact H|].
  intros r. apply matchReason_some.
Qed.

Lemma matchStryker_some s m :
  Grammar.matchStryker s = Some m ->
  Js.dropPrefix "Stryker " s <> None
  /\ Grammar.mutators m <> ""
  /\ Js.allChars Js.isNameChar (Grammar.mutators m) = true
  /\ (forall r, Grammar.optionalReason m = Some r ->
                r <> "" /\ Js.allChars Js.isDot r = true).
Proof.
  unfold Grammar.matchStryker.
  destruct (Js.dropPrefix "Stryker " s) as [s1|]; [|discriminate].
  intros H. split; [discriminate|]. revert H.
  unfold Grammar.matchDirectiveType, Grammar.matchScope.
  repeat match goal with
         | |- context [match Js.dropPrefix ?p ?x with _ => _ end] =>
             destruct (Js.dropPrefix p x)
         | |- context [match Grammar.matchMutators ?d ?sc ?x with _ => _ end] =>
             let E := fresh "E" in
             destruct (Grammar.matchMutators d sc x) eqn:E
         end;
    intros H; try discriminate;
    try (injection H as <-);
    solve [ eapply matchMutators_some; eassumption ].
Qed.

(** X1. Whatever the regular expression accepts starts with the keyword
    [Stryker ], after at most one white-space character; the kind is
    [disable] or [restore], the scope is absent or [next-line], the names
    are a non-empty run of letters, commas and spaces, and a reason, when
    captured, is non-empty and holds no line terminator. *)
Theorem exec_accepts_only_directives (c : string) (m : Grammar.Match) :
  Grammar.exec c = Some m ->
  (Js.dropPrefix "Stryker " c <> None
   \/ exists a r, c = String a r /\ Js.isSpace a = true
                  /\ Js.dropPrefix "Stryker " r <> None)
  /\ (Grammar.directiveType m = "disable" \/ Grammar.directiveType m = "restore")
  /\ (Grammar.scope m = None \/ Grammar.scope m = Some "next-line")
  /\ Grammar.mutators m <> ""
  /\ Js.allChars Js.isNameChar (Grammar.mutators m) = true
  /\ (forall r, Grammar.optionalReason m = Some r ->
                r <> "" /\ Js.allChars Js.isDot r = true).
Proof.
  intros He. destruct (exec_groups _ _ He) as [Hty Hsc].
  assert (H : (Js.dropPrefix "Stryker " c <> None
               \/ exists a r, c = String a r /\ Js.isSpace a = true
                              /\ Js.dropPrefix "Stryker " r <> None)
              /\ Grammar.mutators m <> ""
              /\ Js.allChars Js.isNameChar (Grammar.mutators m) = true
              /\ (forall r, Grammar.optionalReason m = Some r ->
                            r <> "" /\ Js.allChars Js.isDot r = true)).
  { revert He. unfold Grammar.exec. destruct c as [|a r].
    - intros H. apply matchStryker_some in H as [H1 H2]. split; [left|]; assumption.
    - destruct (Js.isSpace a) eqn:Ea.
      + destruct (Grammar.matchStryker r) as [m1|] eqn:E.
        * intros H. injection H as <-.
          apply matchStryker_some in E as [H1 H2].
          split; [right; exists a, r; auto|assumption].
        * intros H. apply matchStryker_some in H as [H1 H2].
          split; [left|]; assumption.
      + intros H. apply matchStryker_some in H as [H1 H2].
        split; [left|]; assumption. }
  destruct H as [H1 H2]. auto.
Qed.

Lemma exec_accepts_only_directives_witness :
  Js.allChars Js.isNameChar "StringLiteral, BooleanLiteral " = true.
Proof.
  apply (exec_accepts_only_directives
           " Stryker restore next-line StringLiteral, BooleanLiteral : done"
           (Grammar.mkMatch "restore" (Some "next-line")
              "StringLiteral, BooleanLiteral " (Some " done"))).
  reflexivity.
Defined.

Lemma space_is_not_keyword (b : ascii) (r : string) :
  Js.isSpace b = true -> Grammar.matchStryker (String b r) = None.
Proof.
  intros Hb. unfold Grammar.matchStryker. cbn [Js.dropPrefix].
  destruct (Ascii.eqb "S" b) eqn:E; [|reflexivity].
  apply Ascii.eqb_eq in E. subst b. discriminate Hb.
Qed.

(** X2. A comment that starts with two white-space characters is not a
    directive, whatever follows: the expression allows one at most. *)
Theorem exec_rejects_two_leading_spaces (a b : ascii) (r : string) :
  Js.isSpace a = true -> Js.isSpace b = true ->
  Grammar.exec (String a (String b r)) = None.
Proof.
  intros Ha Hb. unfold Grammar.exec. rewrite Ha.
  rewrite (space_is_not_keyword b r Hb), (space_is_not_keyword a _ Ha).
  reflexivity.
Qed.

Lemma exec_rejects_two_leading_spaces_witness :
  Grammar.exec "  Stryker disable all" = None.
Proof.
  apply (exec_rejects_two_leading_spaces " " " " "Stryker disable all");
    reflexivity.
Defined.

Lemma append_empty_r (s : string) : s ++ "" = s.
Proof. induction s as [|c r IH]; simpl; [reflexivity|rewrite IH; reflexivity]. Qed.

Lemma names_end_is_not_scope (names : string) :
  Js.allChars Js.isNameChar names = true ->
  Js.dropPrefix "next-line" names = None.
Proof.
  intros H.
  destruct names as [|c1 [|c2 [|c3 [|c4 [|c5 r]]]]];
    cbn [Js.dropPrefix];
    repeat match goal with
           | |- context [Ascii.eqb ?a ?b] =>
               let E := fresh "E" in
               destruct (Ascii.eqb a b) eqn:E; [|reflexivity];
               apply Ascii.eqb_eq in E; try subst b
           end;
    try reflexivity.
  cbv in H. discriminate H.
Qed.

Lemma matchScope_text (kind : string) (nextLine : bool) (names : string)
    (reason : option string) :
  names <> "" ->
  Js.allChars Js.isNameChar names = true ->
  (forall r, reason = Some r -> r <> "" /\ Js.allChars Js.isDot r = true) ->
  Grammar.matchScope kind
    ((if nextLine then " next-line" else "") ++ " " ++ names
     ++ match reason with Some r => ":" ++ r | None => "" end)
  = Some (Grammar.mkMatch kind (if nextLine then Some "next-line" else None)
            names reason).
Proof.
  intros Hne Hn Hr.
  assert (M : forall sc,
            Grammar.matchMutators kind sc
              (" " ++ names ++ match reason with Some r => ":" ++ r | None => "" end)
            = Some (Grammar.mkMatch kind sc names reason)).
  { intros sc. destruct reason as [r|].
    - change (":" ++ r) with (String ":" r).
      rewrite (matchMutators_names _ _ _ _ Hne Hn).
      destruct (Hr r eq_refl) as [Hr1 Hr2].
      unfold Grammar.matchReason. change (N.eqb (Js.code ":") 58) with true.
      cbv beta iota. rewrite (span_all _ _ Hr2). cbn [fst].
      destruct r; [contradiction|reflexivity].
    - rewrite append_empty_r. unfold Grammar.matchMutators.
      rewrite dropPrefix_app, (span_all _ _ Hn).
      destruct names; [contradiction|reflexivity]. }
  unfold Grammar.matchScope. destruct nextLine.
  - rewrite dropPrefix_app, M. reflexivity.
  - change ("" ++ ?x) with x.
    replace (Js.dropPrefix " next-line"
               (" " ++ names ++ match reason with Some r => ":" ++ r | None => "" end))
      with (@None string).
    + apply M.
    + change (Js.dropPrefix " next-line" (" " ++ ?x))
        with (Js.dropPrefix "next-line" x).
      symmetry. destruct reason as [r|].
      * apply names_are_not_scope. exact Hn.
      * rewrite append_empty_r. apply names_end_is_not_scope. exact Hn.
Qed.

(** X3. Parsing gives back what was written: the text made of at most one
    leading white-space character, the keyword, a kind, the optional scope,
    names in the class of the third group and, after a colon, a non-empty
    reason without line terminator, is matched with exactly that kind, that
    scope, those names and that reason. *)
Theorem exec_directiveText (lead kind : string) (nextLine : bool)
    (names : string) (reason : option string) :
  Js.allChars Js.isSpace lead = true ->
  (String.length lead <= 1)%nat ->
  kind = "disable" \/ kind = "restore" ->
  names <> "" ->
  Js.allChars Js.isNameChar names = true ->
  (forall r, reason = Some r -> r <> "" /\ Js.allChars Js.isDot r = true) ->
  Grammar.exec (directiveText lead kind nextLine names reason)
  = Some (Grammar.mkMatch kind (if nextLine then Some "next-line" else None)
            names reason).
Proof.
  intros Hl Hlen Hk Hne Hn Hr.
  pose proof (matchScope_text kind nextLine names reason Hne Hn Hr) as Sc.
  assert (S : Grammar.matchStryker
                ("Stryker " ++ kind ++ (if nextLine then " next-line" else "")
                 ++ " " ++ names
                 ++ match reason with Some r => ":" ++ r | None => "" end)
              = Some (Grammar.mkMatch kind
                        (if nextLine then Some "next-line" else None)
                        names reason)).
  { unfold Grammar.matchStryker. rewrite dropPrefix_app.
    unfold Grammar.matchDirectiveType.
    destruct Hk as [-> | ->].
    - rewrite dropPrefix_app, Sc. reflexivity.
    - change (Js.dropPrefix "disable" ("restore" ++ ?x)) with (@None string).
      rewrite dropPrefix_app, Sc. reflexivity. }
  unfold directiveText.
  destruct lead as [|c [|c' lead]].
  - change ("" ++ ?x) with x. rewrite <- S.
    unfold Grammar.exec.
    change (match "Stryker " ++ ?x with
            | "" => None
            | String c r => if Js.isSpace c then Grammar.matchStryker r else None
            end) with (@None Grammar.Match).
    reflexivity.
  - cbn [Js.allChars] in Hl. apply andb_prop in Hl as [Hc _].
    change (String c "" ++ ?x) with (String c x).
    unfold Grammar.exec. cbv beta iota. rewrite Hc, S. reflexivity.
  - simpl in Hlen. lia.
Qed.

Lemma exec_directiveText_witness :
  Grammar.exec " Stryker restore next-line StringLiteral,BooleanLiteral: done"
  = Some (Grammar.mkMatch "restore" (Some "next-line")
            "StringLiteral,BooleanLiteral" (Some " done")).
Proof.
  apply (exec_directiveText " " "restore" true "StringLiteral,BooleanLiteral"
           (Some " done"));
    try reflexivity; try discriminate.
  - right. reflexivity.
  - intros r H. injection H as <-. split; [discriminate|reflexivity].
Defined.

(** ** Comments that are not directives, and how a call ends *)

(** X4. A node without leading comments, or whose leading comments are all
    rejected by the regular expression, is passed over: the call completes
    normally, the chain and the collector are as before. *)
Theorem non_directive_comments_are_ignored
    this node allMutators collector originFileName :
  (forall comments,
     Ast.leadingComments node = Some comments ->
     Forall (fun comment => Grammar.exec (Ast.value comment) = None) comments) ->
  processStrykerDirectives this node allMutators collector originFileName
  = Normal (this, collector).
Proof.
  intros H. unfold processStrykerDirectives.
  destruct (Ast.leadingComments node) as [comments|]; [|reflexivity].
  specialize (H comments eq_refl).
  assert (E : matchesOf comments = []).
  { induction H as [|comment rest Hc _ IH]; [reflexivity|].
    cbn [matchesOf]. rewrite Hc. exact IH. }
  rewrite E. reflexivity.
Qed.

Lemma non_directive_comments_are_ignored_witness :
  processStrykerDirectives
    (mk (IgnoreRule ["all"] None (Some "why") rootRule))
    (nodeAt 3 [" eslint-disable-next-line"; " stryker disable all";
               "Stryker disable"; " TODO Stryker disable all"])
    [mkNodeMutator "StringLiteral"] [] "src/app.js"
  = Normal (mk (IgnoreRule ["all"] None (Some "why") rootRule), []).
Proof.
  apply non_directive_comments_are_ignored.
  intros comments H. injection H as <-.
  repeat constructor.
Defined.

Lemma pushRule_none directiveType scope names reason node current :
  pushRule directiveType scope names reason node current = None ->
  isNextLine scope = true /\ Ast.loc node = None.
Proof.
  unfold pushRule.
  destruct (String.eqb directiveType "disable");
    [|destruct (String.eqb directiveType "restore")];
    try destruct (isNextLine scope);
    try destruct (Ast.loc node);
    intros H; try discriminate; split; reflexivity.
Qed.

Lemma isNextLine_none (scope : option string) :
  scope = None -> isNextLine scope = false.
Proof. intros ->. reflexivity. Qed.

(** X5. The only way a call can throw is the missing location of a node
    annotated with a next-line directive: on a node that has a location, or
    whose directive comments are all without scope, the call completes
    normally. *)
Theorem process_completes_normally
    this node allMutators collector originFileName :
  (Ast.loc node = None ->
   forall comments,
     Ast.leadingComments node = Some comments ->
     Forall (fun m => Grammar.scope m = None) (matchesOf comments)) ->
  exists this' collector',
    processStrykerDirectives this node allMutators collector originFileName
    = Normal (this', collector').
Proof.
  intros H. unfold processStrykerDirectives.
  destruct (Ast.leadingComments node) as [comments|]; [|eauto].
  assert (F : Forall (fun m => Ast.loc node = None -> Grammar.scope m = None)
                (matchesOf comments)).
  { destruct (Ast.loc node) as [l|] eqn:El.
    - apply Forall_forall. intros m _ Hl. discriminate Hl.
    - eapply Forall_impl; [|exact (H eq_refl comments eq_refl)].
      intros m Hm _. exact Hm. }
  clear H. revert this collector.
  induction F as [|m rest Hm _ IH]; intros this collector; [simpl; eauto|].
  cbn [forEachMatch]. unfold applyDirective.
  destruct (pushRule _ _ _ _ _ _) as [rule|] eqn:E.
  - apply IH.
  - apply pushRule_none in E as [E1 E2].
    rewrite (isNextLine_none _ (Hm E2)) in E1. discriminate E1.
Qed.

Lemma process_completes_normally_witness :
  exists this' collector',
    processStrykerDirectives create
      (Ast.mkNode (Some [Ast.mkComment " Stryker disable Typofied";
                         Ast.mkComment " Stryker restore all"]) None)
      [mkNodeMutator "StringLiteral"] [] "src/app.js"
    = Normal (this', collector').
Proof.
  apply process_completes_normally.
  intros _ comments H. injection H as <-. repeat constructor.
Defined.

(** X6. A next-line directive on a node without location throws: the
    unknown names of that directive have been reported by then, no rule is
    pushed for it, and the comments that follow it on the node are not
    processed. *)
Theorem next_line_without_location_throws
    this node c rest m allMutators collector originFileName :
  Ast.leadingComments node = Some (Ast.mkComment c :: rest) ->
  Grammar.exec c = Some m ->
  Grammar.scope m = Some "next-line" ->
  Ast.loc node = None ->
  processStrykerDirectives this node allMutators collector originFileName
  = Thrown (this,
            reportUnused (Grammar.directiveType m) node allMutators
              originFileName (directivesOf (Grammar.mutators m)) collector).
Proof.
  intros Hn He Hs Hl. unfold processStrykerDirectives. rewrite Hn.
  cbn [matchesOf Ast.value]. rewrite He. cbn [forEachMatch].
  unfold applyDirective, pushRule. rewrite Hs, Hl.
  cbn [isNextLine String.eqb Ascii.eqb Bool.eqb].
  destruct (exec_groups _ _ He) as [[-> | ->] _]; reflexivity.
Qed.

Lemma next_line_without_location_throws_witness :
  let node :=
    Ast.mkNode (Some [Ast.mkComment " Stryker disable next-line Typofied";
                      Ast.mkComment " Stryker disable all"]) None in
  processStrykerDirectives create node [mkNodeMutator "StringLiteral"] []
    "src/app.js"
  = Thrown (create, [unusedCall "disable" node "src/app.js" "Typofied"]).
Proof.
  intros node.
  exact (next_line_without_location_throws create node
           " Stryker disable next-line Typofied"
           [Ast.mkComment " Stryker disable all"]
           (Grammar.mkMatch "disable" (Some "next-line") "Typofied" None)
           [mkNodeMutator "StringLiteral"] [] "src/app.js"
           eq_refl eq_refl eq_refl eq_refl).
Defined.

(** ** The chain and the other arguments of a call *)

Lemma pushRule_loc directiveType scope names reason node node' current :
  Ast.loc node = Ast.loc node' ->
  pushRule directiveType scope names reason node current
  = pushRule directiveType scope names reason node' current.
Proof. unfold pushRule. intros ->. reflexivity. Qed.

Lemma forEachMatch_chain node node' allMutators allMutators' originFileName
    originFileName' ms this collector collector' :
  Ast.loc node = Ast.loc node' ->
  fst (stateOf (forEachMatch node allMutators originFileName ms
                  (this, collector)))
  = fst (stateOf (forEachMatch node' allMutators' originFileName' ms
                    (this, collector')))
  /\ isNormal (forEachMatch node allMutators originFileName ms (this, collector))
     = isNormal (forEachMatch node' allMutators' originFileName' ms
                   (this, collector')).
Proof.
  intros Hl. revert this collector collector'.
  induction ms as [|m rest IH]; intros this collector collector'.
  - split; reflexivity.
  - cbn [forEachMatch]. unfold applyDirective.
    rewrite (pushRule_loc _ _ _ _ node node' _ Hl).
    destruct (pushRule _ _ _ _ node' _) as [rule|].
    + apply IH.
    + split; reflexivity.
Qed.

(** X7. What a call does to the chain, and whether it throws, depends on
    the node alone: the registry of mutators, the collector and the file
    name have no part in it, so a directive is honoured the same whether its
    names are known or not. *)
Theorem chain_ignores_registry
    this node allMutators allMutators' collector collector' originFileName
    originFileName' :
  fst (stateOf (processStrykerDirectives this node allMutators collector
                  originFileName))
  = fst (stateOf (processStrykerDirectives this node allMutators' collector'
                    originFileName'))
  /\ isNormal (processStrykerDirectives this node allMutators collector
                 originFileName)
     = isNormal (processStrykerDirectives this node allMutators' collector'
                   originFileName').
Proof.
  unfold processStrykerDirectives.
  destruct (Ast.leadingComments node) as [comments|].
  - apply forEachMatch_chain. reflexivity.
  - split; reflexivity.
Qed.

Lemma forEachMatch_app node allMutators originFileName ms1 ms2 st :
  forEachMatch node allMutators originFileName (ms1 ++ ms2)%list st
  = match forEachMatch node allMutators originFileName ms1 st with
    | Normal st' => forEachMatch node allMutators originFileName ms2 st'
    | Thrown st' => Thrown st'
    end.
Proof.
  revert st. induction ms1 as [|m rest IH]; intros st; [reflexivity|].
  cbn [app forEachMatch].
  destruct (applyDirective node allMutators originFileName m st);
    [apply IH|reflexivity].
Qed.

Lemma matchesOf_app cs1 cs2 :
  matchesOf (cs1 ++ cs2)%list = (matchesOf cs1 ++ matchesOf cs2)%list.
Proof.
  induction cs1 as [|c rest IH]; [reflexivity|].
  cbn [app matchesOf]. destruct (Grammar.exec (Ast.value c));
    rewrite IH; reflexivity.
Qed.

(** X8. Directive comments stacked on one node act on the chain as if they
    were on two nodes at the same location processed one after the other,
    the first with the comments of the top and the second with the rest,
    provided the first call completes normally. *)
Theorem stacked_comments_compose
    this node1 node2 node12 cs1 cs2 allMutators collector originFileName
    allMutators2 collector2 originFileName2 this1 collector1 :
  Ast.leadingComments node1 = Some cs1 ->
  Ast.leadingComments node2 = Some cs2 ->
  Ast.leadingComments node12 = Some (cs1 ++ cs2)%list ->
  Ast.loc node1 = Ast.loc node12 ->
  Ast.loc node2 = Ast.loc node12 ->
  processStrykerDirectives this node1 allMutators collector originFileName
  = Normal (this1, collector1) ->
  fst (stateOf (processStrykerDirectives this node12 allMutators collector
                  originFileName))
  = fst (stateOf (processStrykerDirectives this1 node2 allMutators2 collector2
                    originFileName2))
  /\ isNormal (processStrykerDirectives this node12 allMutators collector
                 originFileName)
     = isNormal (processStrykerDirectives this1 node2 allMutators2 collector2
                   originFileName2).
Proof.
  intros H1 H2 H12 L1 L2 R.
  unfold processStrykerDirectives in *. rewrite H1 in R. rewrite H2, H12.
  rewrite matchesOf_app, forEachMatch_app.
  pose proof (forEachMatch_chain node12 node1 allMutators allMutators
                originFileName originFileName (matchesOf cs1) this collector
                collector (eq_sym L1)) as [E1 N1].
  rewrite R in E1, N1. cbn [stateOf fst isNormal] in E1, N1.
  destruct (forEachMatch node12 allMutators originFileName (matchesOf cs1)
              (this, collector)) as [[this1' collector1']|st]; [|discriminate N1].
  cbn [stateOf fst] in E1. subst this1'.
  apply forEachMatch_chain. symmetry. exact L2.
Qed.

Lemma stacked_comments_compose_witness :
  fst (stateOf (processStrykerDirectives create
                  (nodeAt 5 [" Stryker disable all: a";
                             " Stryker restore next-line StringLiteral"])
                  [] [] "src/app.js"))
  = fst (stateOf (processStrykerDirectives
                    (mk (IgnoreRule ["all"] None (Some "a") rootRule))
                    (nodeAt 5 [" Stryker restore next-line StringLiteral"])
                    [mkNodeMutator "StringLiteral"] [] "src/other.js")).
Proof.
  apply (stacked_comments_compose create
           (nodeAt 5 [" Stryker disable all: a"])
           (nodeAt 5 [" Stryker restore next-line StringLiteral"])
           (nodeAt 5 [" Stryker disable all: a";
                      " Stryker restore next-line StringLiteral"])
           [Ast.mkComment " Stryker disable all: a"]
           [Ast.mkComment " Stryker restore next-line StringLiteral"]
           [] [] "src/app.js" [mkNodeMutator "StringLiteral"] [] "src/other.js"
           (mk (IgnoreRule ["all"] None (Some "a") rootRule)) []);
    reflexivity.
Defined.

(** ** The chain only grows *)

Lemma matchesOf_groups (comments : list Ast.Comment) :
  Forall (fun m =>
            (Grammar.directiveType m = "disable"
             \/ Grammar.directiveType m = "restore")
            /\ (Grammar.scope m = None \/ Grammar.scope m = Some "next-line"))
         (matchesOf comments).
Proof.
  induction comments as [|comment rest IH]; [constructor|].
  cbn [matchesOf]. destruct (Grammar.exec (Ast.value comment)) as [m|] eqn:E;
    [|exact IH].
  constructor; [exact (exec_groups _ _ E)|exact IH].
Qed.

(** The rule a directive of the grammar pushes, when it pushes one. *)
Lemma pushRule_shape directiveType scope names reason node current rule :
  directiveType = "disable" \/ directiveType = "restore" ->
  pushRule directiveType scope names reason node current = Some rule ->
  rule
  = IgnoreRule names
      (if isNextLine scope
       then option_map (fun l => Ast.line (Ast.start l)) (Ast.loc node)
       else None)
      (if String.eqb directiveType "disable" then Some reason else None)
      current
  /\ (isNextLine scope = true -> Ast.loc node <> None).
Proof.
  unfold pushRule, RestoreRule.
  intros [-> | ->]; cbn [String.eqb Ascii.eqb Bool.eqb];
    destruct (isNextLine scope);
    try (destruct (Ast.loc node) as [l|]; [|discriminate]);
    intros H; injection H as <-; (split; [reflexivity|]);
    intros; discriminate.
Qed.

Lemma nthPrevious_step (k : nat) (rule rule1 rule0 : Rule) :
  nthPrevious k rule = Some rule1 ->
  Rule.previousRuleOf rule1 = Some rule0 ->
  nthPrevious (S k) rule = Some rule0.
Proof.
  revert rule. induction k as [|k IH]; intros rule H H0.
  - cbn [nthPrevious] in H. injection H as ->.
    cbn [nthPrevious]. rewrite H0. reflexivity.
  - cbn [nthPrevious] in H.
    change (nthPrevious (S (S k)) rule)
      with (match Rule.previousRuleOf rule with
            | Some previous => nthPrevious (S k) previous
            | None => None
            end).
    destruct (Rule.previousRuleOf rule) as [previous|]; [|discriminate].
    exact (IH previous H H0).
Qed.

Lemma forEachMatch_grows node allMutators originFileName ms :
  Forall (fun m =>
            (Grammar.directiveType m = "disable"
             \/ Grammar.directiveType m = "restore")
            /\ (Grammar.scope m = None \/ Grammar.scope m = Some "next-line"))
         ms ->
  forall this collector,
  exists k,
    (k <= length ms)%nat
    /\ nthPrevious k
         (currentIgnoreRule
            (fst (stateOf (forEachMatch node allMutators originFileName ms
                             (this, collector)))))
       = Some (currentIgnoreRule this)
    /\ Rule.chainLength
         (currentIgnoreRule
            (fst (stateOf (forEachMatch node allMutators originFileName ms
                             (this, collector)))))
       = (Rule.chainLength (currentIgnoreRule this) + k)%nat
    /\ (isNormal (forEachMatch node allMutators originFileName ms
                    (this, collector)) = true ->
        k = length ms).
Proof.
  induction 1 as [|m rest [Hty _] _ IH]; intros this collector.
  - exists O. cbn. repeat split; try reflexivity; lia.
  - cbn [forEachMatch]. unfold applyDirective.
    destruct (pushRule _ _ _ _ _ _) as [rule|] eqn:E.
    + apply (pushRule_shape _ _ _ _ _ _ _ Hty) in E as [E _].
      destruct (IH (mk rule)
                  (reportUnused (Grammar.directiveType m) node allMutators
                     originFileName (directivesOf (Grammar.mutators m))
                     collector))
        as [k [Hk [Hp [Hl Hn]]]].
      exists (S k). cbv beta iota. cbn [length].
      split; [lia|]. split; [|split].
      * apply (nthPrevious_step _ _ _ _ Hp).
        cbn [currentIgnoreRule]. rewrite E. reflexivity.
      * rewrite Hl. cbn [currentIgnoreRule]. rewrite E.
        cbn [Rule.chainLength]. lia.
      * intros N. rewrite (Hn N). reflexivity.
    + exists O. cbn. repeat split; try lia; try discriminate.
Qed.

(** X9. A call never drops or changes a rule: the chain it leaves reaches
    the chain it found by following as many predecessor links as rules were
    pushed, at most one per leading comment; when the call completes
    normally, exactly one rule was pushed per comment the regular expression
    accepts. *)
Theorem chain_only_grows this node allMutators collector originFileName :
  exists k,
    (k <= commentCount node)%nat
    /\ nthPrevious k
         (currentIgnoreRule
            (fst (stateOf (processStrykerDirectives this node allMutators
                             collector originFileName))))
       = Some (currentIgnoreRule this)
    /\ Rule.chainLength
         (currentIgnoreRule
            (fst (stateOf (processStrykerDirectives this node allMutators
                             collector originFileName))))
       = (Rule.chainLength (currentIgnoreRule this) + k)%nat
    /\ (forall comments,
          Ast.leadingComments node = Some comments ->
          isNormal (processStrykerDirectives this node allMutators collector
                      originFileName) = true ->
          k = length (matchesOf comments)).
Proof.
  unfold processStrykerDirectives, commentCount.
  destruct (Ast.leadingComments node) as [comments|].
  - destruct (forEachMatch_grows node allMutators originFileName
                (matchesOf comments) (matchesOf_groups comments)
                this collector) as [k [Hk [Hp [Hl Hn]]]].
    exists k. split; [pose proof (matchesOf_length comments); lia|].
    split; [exact Hp|]. split; [exact Hl|].
    intros comments' E. injection E as <-. exact Hn.
  - exists O. cbn. repeat split; try lia. intros comments E. discriminate E.
Qed.

(** ** Queries a call leaves alone *)

Lemma pushRule_frame directiveType scope names reason node current rule
    (mutatorName : string) (line : Z) :
  pushRule directiveType scope names reason node current = Some rule ->
  (Js.includes names mutatorName || Js.includes names WILDCARD)%bool = false
  \/ (scope = Some "next-line"
      /\ forall l, Ast.loc node = Some l -> Ast.line (Ast.start l) <> line) ->
  Rule.findIgnoreReason rule mutatorName line
  = Rule.findIgnoreReason current mutatorName line.
Proof.
  intros P H.
  assert (K :
            Rule.matches names
              (if isNextLine scope
               then option_map (fun l => Ast.line (Ast.start l)) (Ast.loc node)
               else None) mutatorName line = false
            \/ (isNextLine scope = true /\ Ast.loc node = None)).
  { destruct H as [H|[-> H]].
    - left. unfold Rule.matches. rewrite H. apply andb_false_r.
    - cbn [isNextLine String.eqb Ascii.eqb Bool.eqb].
      destruct (Ast.loc node) as [l|]; [|right; split; reflexivity].
      left. cbn [option_map]. unfold Rule.matches.
      apply andb_false_intro1. apply Z.eqb_neq. exact (H l eq_refl). }
  unfold pushRule, RestoreRule in P.
  destruct (String.eqb directiveType "disable");
    [|destruct (String.eqb directiveType "restore")];
    try (destruct (isNextLine scope);
         [destruct (Ast.loc node) as [l|]; [|discriminate]|]);
    injection P as <-; try reflexivity;
    apply findIgnoreReason_skip;
    (destruct K as [K1|[K1 K2]]; [exact K1|discriminate]).
Qed.

(** X10. A call leaves the answer to a query as it was when every directive
    of the node either names neither the queried mutator, up to case, nor
    the wildcard, or is a next-line directive of a node that starts at
    another line than the queried one. *)
Theorem unnamed_queries_are_unaffected
    this node allMutators collector originFileName line mutatorName :
  (forall comments m,
     Ast.leadingComments node = Some comments ->
     In m (matchesOf comments) ->
     (Js.includes (mutatorNamesOf (Grammar.mutators m))
        (Js.toLowerCase mutatorName)
      || Js.includes (mutatorNamesOf (Grammar.mutators m)) WILDCARD)%bool
     = false
     \/ (Grammar.scope m = Some "next-line"
         /\ forall l, Ast.loc node = Some l -> Ast.line (Ast.start l) <> line)) ->
  ignoreReasonAt
    (fst (stateOf (processStrykerDirectives this node allMutators collector
                     originFileName)))
    line mutatorName
  = ignoreReasonAt this line mutatorName.
Proof.
  intros H. unfold processStrykerDirectives.
  destruct (Ast.leadingComments node) as [comments|]; [|reflexivity].
  specialize (H comments).
  assert (F : forall m, In m (matchesOf comments) ->
            (Js.includes (mutatorNamesOf (Grammar.mutators m))
               (Js.toLowerCase mutatorName)
             || Js.includes (mutatorNamesOf (Grammar.mutators m)) WILDCARD)%bool
            = false
            \/ (Grammar.scope m = Some "next-line"
                /\ forall l, Ast.loc node = Some l ->
                             Ast.line (Ast.start l) <> line)).
  { intros m Hm. exact (H m eq_refl Hm). }
  clear H. revert this collector.
  induction (matchesOf comments) as [|m rest IH]; intros this collector;
    [reflexivity|].
  cbn [forEachMatch]. unfold applyDirective.
  destruct (pushRule _ _ _ _ _ _) as [rule|] eqn:E; [|reflexivity].
  rewrite IH by (intros m' Hm'; apply F; right; exact Hm').
  unfold ignoreReasonAt, DirectiveBookkeeper.findIgnoreReason.
  cbn [fst currentIgnoreRule].
  exact (pushRule_frame _ _ _ _ _ _ _ _ _ E (F m (or_introl eq_refl))).
Qed.

Lemma unnamed_queries_are_unaffected_witness :
  ignoreReasonAt
    (fst (stateOf (processStrykerDirectives
                     (mk (IgnoreRule ["booleanliteral"] None (Some "kept")
                            rootRule))
                     (nodeAt 8 [" Stryker restore StringLiteral";
                                " Stryker restore next-line all"])
                     [] [] "src/app.js")))
    9 "BooleanLiteral"
  = Some "kept".
Proof.
  apply (unnamed_queries_are_unaffected
           (mk (IgnoreRule ["booleanliteral"] None (Some "kept") rootRule))
           (nodeAt 8 [" Stryker restore StringLiteral";
                      " Stryker restore next-line all"])
           [] [] "src/app.js" 9 "BooleanLiteral").
  intros comments m H. injection H as <-.
  intros [<- | [<- | []]].
  - left. reflexivity.
  - right. split; [reflexivity|].
    intros l E. injection E as <-. discriminate.
Defined.

(** ** What is reported, and what is not *)

Lemma reportUnused_filter directiveType node allMutators originFileName
    directives collector :
  reportUnused directiveType node allMutators originFileName directives
    collector
  = (collector
     ++ map (unusedCall directiveType node originFileName)
          (filter (fun directive => negb (isKnown allMutators directive))
             directives))%list.
Proof.
  revert collector.
  induction directives as [|directive rest IH]; intros collector.
  - cbn. rewrite app_nil_r. reflexivity.
  - cbn [reportUnused filter]. rewrite IH.
    destruct (isKnown allMutators directive); cbn [negb map].
    + reflexivity.
    + rewrite <- app_assoc. reflexivity.
Qed.

Lemma forEachMatch_reports node allMutators originFileName ms this collector
    this' collector' :
  forEachMatch node allMutators originFileName ms (this, collector)
  = Normal (this', collector') ->
  collector'
  = (collector
     ++ flat_map (diagnosticsOf node allMutators originFileName) ms)%list.
Proof.
  revert this collector.
  induction ms as [|m rest IH]; intros this collector.
  - cbn. intros H. injection H as _ <-. rewrite app_nil_r. reflexivity.
  - cbn [forEachMatch flat_map]. unfold applyDirective.
    destruct (pushRule _ _ _ _ _ _) as [rule|]; [|discriminate].
    intros H. apply IH in H. rewrite H, reportUnused_filter, <- app_assoc.
    reflexivity.
Qed.

(** X11. When a call completes normally, the collector has received, after
    what it held, one diagnostic for each token that is neither the
    wildcard as written nor a registered name up to case: comment by
    comment and, within a comment, token by token in the order written, a
    token written twice being reported twice. *)
Theorem diagnostics_follow_the_tokens
    this node comments allMutators collector originFileName this' collector' :
  Ast.leadingComments node = Some comments ->
  processStrykerDirectives this node allMutators collector originFileName
  = Normal (this', collector') ->
  collector'
  = (collector
     ++ flat_map
          (fun m =>
             map (unusedCall (Grammar.directiveType m) node originFileName)
               (filter (fun token => negb (isKnown allMutators token))
                  (filter (fun token => negb (String.eqb token WILDCARD))
                     (map Js.trim (Js.split (Grammar.mutators m))))))
          (matchesOf comments))%list.
Proof.
  intros Hn. unfold processStrykerDirectives. rewrite Hn.
  apply forEachMatch_reports.
Qed.

Lemma diagnostics_follow_the_tokens_witness :
  let node := nodeAt 2 [" Stryker disable Foo, all ,stringliteral,Foo";
                        " nothing"; " Stryker restore Bar"] in
  [unusedCall "disable" node "src/app.js" "Foo";
   unusedCall "disable" node "src/app.js" "Foo";
   unusedCall "restore" node "src/app.js" "Bar"]
  = ([] ++ flat_map
             (fun m =>
                map (unusedCall (Grammar.directiveType m) node "src/app.js")
                  (filter (fun token =>
                             negb (isKnown [mkNodeMutator "StringLiteral"] token))
                     (filter (fun token => negb (String.eqb token WILDCARD))
                        (map Js.trim (Js.split (Grammar.mutators m))))))
             (matchesOf (map Ast.mkComment
                           [" Stryker disable Foo, all ,stringliteral,Foo";
                            " nothing"; " Stryker restore Bar"])))%list.
Proof.
  intros node.
  exact (diagnostics_follow_the_tokens create node
           (map Ast.mkComment
              [" Stryker disable Foo, all ,stringliteral,Foo";
               " nothing"; " Stryker restore Bar"])
           [mkNodeMutator "StringLiteral"] [] "src/app.js"
           (mk (RestoreRule ["bar"] None
                  (IgnoreRule ["foo"; "all"; "stringliteral"; "foo"] None
                     (Some DEFAULT_REASON) rootRule)))
           [unusedCall "disable" node "src/app.js" "Foo";
            unusedCall "disable" node "src/app.js" "Foo";
            unusedCall "restore" node "src/app.js" "Bar"]
           eq_refl eq_refl).
Defined.

Lemma reportUnused_sound directiveType node allMutators originFileName
    directives collector :
  exists added,
    reportUnused directiveType node allMutators originFileName directives
      collector
    = (collector ++ added)%list
    /\ Forall (fun call =>
                 exists directive,
                   In directive directives
                   /\ isKnown allMutators directive = false
                   /\ call = unusedCall directiveType node originFileName
                               directive) added.
Proof.
  rewrite reportUnused_filter. eexists. split; [reflexivity|].
  apply Forall_forall. intros call Hc.
  apply in_map_iff in Hc as [directive [<- Hd]].
  apply filter_In in Hd as [Hd Hk].
  exists directive. split; [exact Hd|]. split; [|reflexivity].
  destruct (isKnown allMutators directive); [discriminate Hk|reflexivity].
Qed.

(** X12. Whatever a call reports, however it ends, is about a name that is
    not the wildcard as written and that no registered mutator has up to
    case; the diagnostic is a mutant identified by that name, in the file
    given, with the annotated node as its original and as its replacement,
    and its message names the kind of the directive. *)
Theorem diagnostics_are_sound this node allMutators collector originFileName :
  exists added,
    snd (stateOf (processStrykerDirectives this node allMutators collector
                    originFileName))
    = (collector ++ added)%list
    /\ Forall
         (fun call =>
            mutatorName (callMutant call) <> WILDCARD
            /\ isKnown allMutators (mutatorName (callMutant call)) = false
            /\ (mutantIgnoreReason (callMutant call)
                = "Unused 'Stryker disable' directive"
                \/ mutantIgnoreReason (callMutant call)
                   = "Unused 'Stryker restore' directive")
            /\ mutantId (callMutant call) = mutatorName (callMutant call)
            /\ mutantFileName (callMutant call) = originFileName
            /\ callFileName call = originFileName
            /\ original (callMutant call) = node
            /\ replacement (callMutant call) = node)
         added.
Proof.
  unfold processStrykerDirectives.
  destruct (Ast.leadingComments node) as [comments|];
    [|exists []; cbn; rewrite app_nil_r; split; [reflexivity|constructor]].
  pose proof (matchesOf_groups comments) as G.
  revert this collector.
  induction G as [|m rest [Hty _] _ IH]; intros this collector.
  - exists []. cbn. rewrite app_nil_r. split; [reflexivity|constructor].
  - cbn [forEachMatch]. unfold applyDirective.
    destruct (reportUnused_sound (Grammar.directiveType m) node allMutators
                originFileName (directivesOf (Grammar.mutators m)) collector)
      as [added1 [E1 F1]].
    rewrite E1.
    assert (F1' : Forall
              (fun call =>
                 mutatorName (callMutant call) <> WILDCARD
                 /\ isKnown allMutators (mutatorName (callMutant call)) = false
                 /\ (mutantIgnoreReason (callMutant call)
                     = "Unused 'Stryker disable' directive"
                     \/ mutantIgnoreReason (callMutant call)
                        = "Unused 'Stryker restore' directive")
                 /\ mutantId (callMutant call) = mutatorName (callMutant call)
                 /\ mutantFileName (callMutant call) = originFileName
                 /\ callFileName call = originFileName
                 /\ original (callMutant call) = node
                 /\ replacement (callMutant call) = node) added1).
    { eapply Forall_impl; [|exact F1].
      intros call [directive [Hd [Hk ->]]].
      cbn [unusedCall callMutant mutatorName mutantIgnoreReason mutantId
           mutantFileName callFileName original replacement].
      split.
      { unfold directivesOf in Hd. apply filter_In in Hd as [_ Hd].
        apply String.eqb_neq. destruct (String.eqb directive WILDCARD);
          [discriminate Hd|reflexivity]. }
      split; [exact Hk|]. split; [|repeat split; reflexivity].
      destruct Hty as [-> | ->]; [left|right]; reflexivity. }
    destruct (pushRule _ _ _ _ _ _) as [rule|].
    + destruct (IH (mk rule) (collector ++ added1)%list) as [added2 [E2 F2]].
      exists (added1 ++ added2)%list. cbv beta iota. split.
      * etransitivity; [exact E2|]. rewrite app_assoc. reflexivity.
      * apply Forall_app. split; assumption.
    + exists added1. split; [reflexivity|exact F1'].
Qed.

Lemma isKnown_any_case (allMutators : list NodeMutator) (x : NodeMutator)
    (token : string) :
  In x allMutators ->
  Js.toLowerCase (name x) = Js.toLowerCase token ->
  isKnown allMutators token = true.
Proof.
  intros Hx E. unfold isKnown, Js.includes. apply existsb_exists.
  exists (Js.toLowerCase token). split; [|apply String.eqb_refl].
  rewrite <- E. apply (in_map (fun x => Js.toLowerCase (name x))). exact Hx.
Qed.

(** X13. A call reports nothing when every token of every directive of the
    node is the wildcard as written or the name of a registered mutator in
    any case. *)
Theorem known_names_are_not_reported
    this node allMutators collector originFileName :
  (forall comments m token,
     Ast.leadingComments node = Some comments ->
     In m (matchesOf comments) ->
     In token (Js.split (Grammar.mutators m)) ->
     Js.trim token = WILDCARD
     \/ exists x, In x allMutators
                  /\ Js.toLowerCase (name x) = Js.toLowerCase (Js.trim token)) ->
  snd (stateOf (processStrykerDirectives this node allMutators collector
                  originFileName))
  = collector.
Proof.
  intros H. unfold processStrykerDirectives.
  destruct (Ast.leadingComments node) as [comments|]; [|reflexivity].
  assert (F : forall m, In m (matchesOf comments) ->
            filter (fun directive => negb (isKnown allMutators directive))
              (directivesOf (Grammar.mutators m)) = []).
  { intros m Hm.
    assert (A : forall d, In d (directivesOf (Grammar.mutators m)) ->
              negb (isKnown allMutators d) = false).
    { intros d Hd. unfold directivesOf in Hd.
      apply filter_In in Hd as [Hd Hw].
      apply in_map_iff in Hd as [token [<- Ht]].
      destruct (H comments m token eq_refl Hm Ht) as [Hall|[x [Hx E]]].
      - rewrite Hall in Hw. discriminate Hw.
      - rewrite (isKnown_any_case _ _ _ Hx E). reflexivity. }
    induction (directivesOf (Grammar.mutators m)) as [|d ds IH];
      [reflexivity|].
    cbn [filter]. rewrite (A d (or_introl eq_refl)).
    apply IH. intros d' Hd'. apply A. right. exact Hd'. }
  clear H. revert this collector.
  induction (matchesOf comments) as [|m rest IH]; intros this collector;
    [reflexivity|].
  cbn [forEachMatch]. unfold applyDirective.
  rewrite reportUnused_filter, (F m (or_introl eq_refl)).
  cbn [map]. rewrite app_nil_r.
  destruct (pushRule _ _ _ _ _ _) as [rule|]; [|reflexivity].
  apply IH. intros m' Hm'. apply F. right. exact Hm'.
Qed.

Lemma known_names_are_not_reported_witness :
  snd (stateOf (processStrykerDirectives create
                  (nodeAt 6 [" Stryker disable STRINGLITERAL, all ,booleanLiteral"])
                  [mkNodeMutator "StringLiteral"; mkNodeMutator "BooleanLiteral"]
                  [] "src/app.js"))
  = [].
Proof.
  apply known_names_are_not_reported.
  intros comments m token H. injection H as <-.
  intros [<- | []] [<- | [<- | [<- | []]]].
  - right. exists (mkNodeMutator "StringLiteral"). split; [left|]; reflexivity.
  - left. reflexivity.
  - right. exists (mkNodeMutator "BooleanLiteral").
    split; [right; left|]; reflexivity.
Defined.

(** ** Resolution as a scan of the chain *)

Lemma findIgnoreReason_some_entry (rule : Rule) (mutatorName : string)
    (line : Z) (reason : string) :
  Rule.findIgnoreReason rule mutatorName line = Some reason ->
  exists newer names l older,
    chainRules rule = (newer ++ (names, l, Some reason) :: older)%list
    /\ Rule.matches names l mutatorName line = true
    /\ Forall (fun entry => entryMatches mutatorName line entry = false) newer.
Proof.
  induction rule as [|names l r prev IH]; [discriminate|].
  cbn [Rule.findIgnoreReason chainRules].
  destruct (Rule.matches names l mutatorName line) eqn:E.
  - intros ->. exists [], names, l, (chainRules prev).
    split; [reflexivity|]. split; [exact E|constructor].
  - intros H. destruct (IH H) as [newer [ns [l' [older [E1 [E2 F]]]]]].
    exists ((names, l, r) :: newer), ns, l', older.
    split; [rewrite E1; reflexivity|]. split; [exact E2|].
    constructor; [exact E|exact F].
Qed.

(** X14. Resolution is a scan of the rules from the newest to the oldest
    that stops at the first one whose predicate holds: the answer is the
    effect of that rule, and [undefined] when there is none.  So a query is
    suppressed with a reason only if a rule carrying that reason matches it
    and no newer rule does. *)
Theorem resolution_is_a_newest_first_scan (rule : Rule) (mutatorName : string)
    (line : Z) :
  Rule.findIgnoreReason rule mutatorName line
  = match find (entryMatches mutatorName line) (chainRules rule) with
    | Some entry => snd entry
    | None => None
    end
  /\ (forall reason,
        Rule.findIgnoreReason rule mutatorName line = Some reason ->
        exists newer names l older,
          chainRules rule = (newer ++ (names, l, Some reason) :: older)%list
          /\ Rule.matches names l mutatorName line = true
          /\ Forall (fun entry => entryMatches mutatorName line entry = false)
               newer).
Proof.
  split.
  - induction rule as [|names l r prev IH]; [reflexivity|].
    cbn [Rule.findIgnoreReason chainRules find].
    unfold entryMatches at 1. cbn [fst snd].
    destruct (Rule.matches names l mutatorName line); [reflexivity|exact IH].
  - intros reason. apply findIgnoreReason_some_entry.
Qed.

(** ** Names are stored folded to lower case *)

Lemma lowerChar_idempotent (c : ascii) :
  Js.lowerChar (Js.lowerChar c) = Js.lowerChar c.
Proof. destruct c as [[] [] [] [] [] [] [] []]; reflexivity. Qed.

Lemma toLowerCase_idempotent (s : string) :
  Js.toLowerCase (Js.toLowerCase s) = Js.toLowerCase s.
Proof.
  induction s as [|c r IH]; [reflexivity|].
  cbn [Js.toLowerCase]. rewrite lowerChar_idempotent, IH. reflexivity.
Qed.

Lemma mutatorNamesOf_folded (mutators : string) :
  Forall (fun n => Js.toLowerCase n = n) (mutatorNamesOf mutators).
Proof.
  unfold mutatorNamesOf. apply Forall_forall. intros n Hn.
  apply in_map_iff in Hn as [raw [<- _]]. apply toLowerCase_idempotent.
Qed.

Lemma forEachMatch_folded node allMutators originFileName ms this collector :
  Forall (fun entry => Forall (fun n => Js.toLowerCase n = n) (fst (fst entry)))
    (chainRules (currentIgnoreRule this)) ->
  Forall (fun entry => Forall (fun n => Js.toLowerCase n = n) (fst (fst entry)))
    (chainRules
       (currentIgnoreRule
          (fst (stateOf (forEachMatch node allMutators originFileName ms
                           (this, collector)))))).
Proof.
  revert this collector.
  induction ms as [|m rest IH]; intros this collector H; [exact H|].
  cbn [forEachMatch]. unfold applyDirective.
  destruct (pushRule _ _ _ _ _ _) as [rule|] eqn:E; [|exact H].
  apply IH. cbn [currentIgnoreRule].
  unfold pushRule, RestoreRule in E.
  destruct (String.eqb (Grammar.directiveType m) "disable");
    [|destruct (String.eqb (Grammar.directiveType m) "restore")];
    try (destruct (isNextLine (Grammar.scope m));
         [destruct (Ast.loc node) as [l|]; [|discriminate]|]);
    injection E as <-; try exact H;
    cbn [chainRules]; (constructor; [apply mutatorNamesOf_folded|exact H]).
Qed.

(** X15. Every name held by a rule of a chain obtained from a new instance
    by any sequence of calls is already folded to lower case: folding it
    again changes nothing.  This is what lets the query fold the queried
    name once and compare by equality. *)
Theorem stored_names_are_folded (calls : list ProcessCall) :
  Forall (fun entry => Forall (fun n => Js.toLowerCase n = n) (fst (fst entry)))
    (chainRules (currentIgnoreRule (fst (processAll calls (create, []))))).
Proof.
  assert (G : forall st,
            Forall (fun entry =>
                      Forall (fun n => Js.toLowerCase n = n) (fst (fst entry)))
              (chainRules (currentIgnoreRule (fst st))) ->
            Forall (fun entry =>
                      Forall (fun n => Js.toLowerCase n = n) (fst (fst entry)))
              (chainRules (currentIgnoreRule (fst (processAll calls st))))).
  { induction calls as [|call rest IH]; intros st H; [exact H|].
    cbn [processAll]. apply IH. unfold processStrykerDirectives.
    destruct (Ast.leadingComments (argNode call)) as [comments|]; [|exact H].
    destruct st as [this collector]. apply forEachMatch_folded. exact H. }
  apply G. constructor.
Qed.

(** ** The rule one directive pushes *)

Lemma single_directive_pushes
    this node c m allMutators collector originFileName this' collector' :
  Ast.leadingComments node = Some [Ast.mkComment c] ->
  Grammar.exec c = Some m ->
  processStrykerDirectives this node allMutators collector originFileName
  = Normal (this', collector') ->
  currentIgnoreRule this'
  = IgnoreRule (mutatorNamesOf (Grammar.mutators m))
      (if isNextLine (Grammar.scope m)
       then option_map (fun l => Ast.line (Ast.start l)) (Ast.loc node)
       else None)
      (if String.eqb (Grammar.directiveType m) "disable"
       then Some (reasonOf (Grammar.optionalReason m)) else None)
      (currentIgnoreRule this)
  /\ (isNextLine (Grammar.scope m) = true -> Ast.loc node <> None).
Proof.
  intros Hn He R.
  rewrite (process_single _ _ _ _ _ _ _ Hn He) in R.
  apply applyDirective_inv in R as [P _].
  destruct (exec_groups _ _ He) as [Hty _].
  exact (pushRule_shape _ _ _ _ _ _ _ Hty P).
Qed.

Lemma includes_In (xs : list string) (x : string) :
  In x xs -> Js.includes xs x = true.
Proof.
  intros H. unfold Js.includes. apply existsb_exists.
  exists x. split; [exact H|apply String.eqb_refl].
Qed.

(** X16. Names are matched up to case and surrounding white space, and so
    is the wildcard: after a directive one of whose comma-separated tokens,
    trimmed and folded, is the folded queried name or is [all], the pushed
    rule matches the query and decides its answer, at every line when the
    directive has no scope and at the line of the node when it is
    next-line. *)
Theorem tokens_match_in_any_case
    this node c m token allMutators collector originFileName this' collector'
    line mutatorName :
  Ast.leadingComments node = Some [Ast.mkComment c] ->
  Grammar.exec c = Some m ->
  processStrykerDirectives this node allMutators collector originFileName
  = Normal (this', collector') ->
  In token (Js.split (Grammar.mutators m)) ->
  Js.toLowerCase (Js.trim token) = Js.toLowerCase mutatorName
  \/ Js.toLowerCase (Js.trim token) = WILDCARD ->
  Grammar.scope m = None
  \/ (exists l, Ast.loc node = Some l /\ Ast.line (Ast.start l) = line) ->
  Rule.ruleMatches (currentIgnoreRule this') (Js.toLowerCase mutatorName) line
  = true
  /\ ignoreReasonAt this' line mutatorName
     = Rule.ruleEffect (currentIgnoreRule this').
Proof.
  intros Hn He R Ht Hq Hl.
  destruct (single_directive_pushes _ _ _ _ _ _ _ _ _ Hn He R) as [E _].
  assert (M : Rule.ruleMatches (currentIgnoreRule this')
                (Js.toLowerCase mutatorName) line = true).
  { rewrite E. cbn [Rule.ruleMatches]. unfold Rule.matches.
    apply andb_true_intro. split.
    - destruct Hl as [-> | [l [-> <-]]].
      + reflexivity.
      + destruct (isNextLine (Grammar.scope m)); [|reflexivity].
        cbn [option_map]. apply Z.eqb_refl.
    - assert (I : In (Js.toLowerCase (Js.trim token))
                    (mutatorNamesOf (Grammar.mutators m))).
      { unfold mutatorNamesOf.
        apply (in_map (fun mutator => Js.toLowerCase (Js.trim mutator))).
        exact Ht. }
      apply includes_In in I. apply orb_true_intro.
      destruct Hq as [<- | <-]; [left|right]; exact I. }
  split; [exact M|].
  unfold ignoreReasonAt, DirectiveBookkeeper.findIgnoreReason. cbn [fst].
  exact (findIgnoreReason_match _ _ _ M).
Qed.

Lemma tokens_match_in_any_case_witness :
  ignoreReasonAt
    (mk (IgnoreRule ["booleanliteral"; "all"] (Some 4) (Some "generated")
           rootRule))
    4 "stringLITERAL"
  = Some "generated".
Proof.
  apply (tokens_match_in_any_case create
           (nodeAt 4 [" Stryker disable next-line BooleanLiteral, ALL : generated"])
           " Stryker disable next-line BooleanLiteral, ALL : generated"
           (Grammar.mkMatch "disable" (Some "next-line") "BooleanLiteral, ALL "
              (Some " generated"))
           " ALL " [] [] "src/app.js"
           (mk (IgnoreRule ["booleanliteral"; "all"] (Some 4) (Some "generated")
                  rootRule))
           [unusedCall "disable"
              (nodeAt 4 [" Stryker disable next-line BooleanLiteral, ALL : generated"])
              "src/app.js" "BooleanLiteral";
            unusedCall "disable"
              (nodeAt 4 [" Stryker disable next-line BooleanLiteral, ALL : generated"])
              "src/app.js" "ALL"]
           4 "stringLITERAL");
    try reflexivity.
  - right. left. reflexivity.
  - right. reflexivity.
  - right. eexists. split; reflexivity.
Defined.

(** ** Where a reason comes from *)

Lemma forEachMatch_pushedBy (calls : list ProcessCall) (call : ProcessCall)
    (comments : list Ast.Comment) allMutators originFileName ms this collector :
  In call calls ->
  Ast.leadingComments (argNode call) = Some comments ->
  (forall m, In m ms -> In m (matchesOf comments)) ->
  Forall (pushedBy calls) (chainRules (currentIgnoreRule this)) ->
  Forall (pushedBy calls)
    (chainRules
       (currentIgnoreRule
          (fst (stateOf (forEachMatch (argNode call) allMutators originFileName
                           ms (this, collector)))))).
Proof.
  intros Hcall Hcs. revert this collector.
  induction ms as [|m rest IH]; intros this collector Hin H; [exact H|].
  cbn [forEachMatch]. unfold applyDirective.
  destruct (pushRule _ _ _ _ _ _) as [rule|] eqn:E; [|exact H].
  apply IH; [intros m' Hm'; apply Hin; right; exact Hm'|].
  cbn [currentIgnoreRule].
  assert (Hm : In m (matchesOf comments)) by (apply Hin; left; reflexivity).
  assert (Hty : Grammar.directiveType m = "disable"
                \/ Grammar.directiveType m = "restore").
  { pose proof (matchesOf_groups comments) as G.
    rewrite Forall_forall in G. exact (proj1 (G m Hm)). }
  apply (pushRule_shape _ _ _ _ _ _ _ Hty) in E as [-> Hloc].
  cbn [chainRules]. constructor; [|exact H].
  exists call, comments, m. repeat split; try assumption.
Qed.

Lemma processAll_pushedBy (calls suffix : list ProcessCall) st :
  (forall call, In call suffix -> In call calls) ->
  Forall (pushedBy calls) (chainRules (currentIgnoreRule (fst st))) ->
  Forall (pushedBy calls)
    (chainRules (currentIgnoreRule (fst (processAll suffix st)))).
Proof.
  revert st. induction suffix as [|call rest IH]; intros st Hin H; [exact H|].
  cbn [processAll].
  apply IH; [intros call' Hc; apply Hin; right; exact Hc|].
  unfold processStrykerDirectives.
  destruct (Ast.leadingComments (argNode call)) as [comments|] eqn:Ec;
    [|exact H].
  destruct st as [this collector].
  apply (forEachMatch_pushedBy calls call comments); auto.
  apply Hin. left. reflexivity.
Qed.

(** X19. No reason is made up.  When, after any sequence of calls on a new
    instance, a query is answered with a reason, one of the processed nodes
    has a disable directive comment whose reason, trimmed or defaulted, is
    that answer, which names the queried mutator up to case or the wildcard
    and which, if it is next-line, annotates a node that starts at the
    queried line. *)
Theorem reasons_come_from_disable_directives
    (calls : list ProcessCall) (line : Z) (mutatorName reason : string) :
  ignoreReasonAt (fst (processAll calls (create, []))) line mutatorName
  = Some reason ->
  exists call comments m,
    In call calls
    /\ Ast.leadingComments (argNode call) = Some comments
    /\ In m (matchesOf comments)
    /\ Grammar.directiveType m = "disable"
    /\ reason = reasonOf (Grammar.optionalReason m)
    /\ (Js.includes (mutatorNamesOf (Grammar.mutators m))
          (Js.toLowerCase mutatorName)
        || Js.includes (mutatorNamesOf (Grammar.mutators m)) WILDCARD)%bool
       = true
    /\ (Grammar.scope m = Some "next-line" ->
        exists l, Ast.loc (argNode call) = Some l
                  /\ Ast.line (Ast.start l) = line).
Proof.
  intros H.
  unfold ignoreReasonAt, DirectiveBookkeeper.findIgnoreReason in H.
  cbn [fst] in H.
  apply findIgnoreReason_some_entry in H
    as [newer [names [l [older [E [M _]]]]]].
  pose proof (processAll_pushedBy calls calls (create, [])
                (fun call Hc => Hc) (Forall_nil _)) as P.
  rewrite E in P. apply Forall_app in P as [_ P].
  apply Forall_inv in P.
  destruct P as [call [comments [m [Hc [Hcs [Hm [Eq Hloc]]]]]]].
  exists call, comments, m.
  unfold entryOf in Eq. injection Eq as En El Er.
  assert (Hty : Grammar.directiveType m = "disable"
                /\ reason = reasonOf (Grammar.optionalReason m)).
  { pose proof (matchesOf_groups comments) as G.
    rewrite Forall_forall in G. destruct (proj1 (G m Hm)) as [Hd|Hr].
    - rewrite Hd in Er. cbn [String.eqb Ascii.eqb Bool.eqb] in Er.
      injection Er as ->. split; [exact Hd|reflexivity].
    - rewrite Hr in Er. discriminate Er. }
  destruct Hty as [Hd Hr].
  unfold Rule.matches in M. apply andb_prop in M as [Ml Mn].
  repeat split; try assumption.
  - rewrite <- En. exact Mn.
  - intros Hs. rewrite Hs in El, Hloc.
    cbn [isNextLine String.eqb Ascii.eqb Bool.eqb] in El, Hloc.
    specialize (Hloc eq_refl).
    destruct (Ast.loc (argNode call)) as [l0|]; [|contradiction].
    exists l0. split; [reflexivity|].
    cbn [option_map] in El. subst l. apply Z.eqb_eq in Ml. exact Ml.
Qed.

Lemma reasons_come_from_disable_directives_witness :
  exists call comments m,
    In call [mkProcessCall (nodeAt 3 [" Stryker disable all: legacy"]) []
               "src/app.js";
             mkProcessCall (nodeAt 9 [" Stryker restore StringLiteral"]) []
               "src/app.js"]
    /\ Ast.leadingComments (argNode call) = Some comments
    /\ In m (matchesOf comments)
    /\ Grammar.directiveType m = "disable"
    /\ "legacy" = reasonOf (Grammar.optionalReason m)
    /\ (Js.includes (mutatorNamesOf (Grammar.mutators m))
          (Js.toLowerCase "BooleanLiteral")
        || Js.includes (mutatorNamesOf (Grammar.mutators m)) WILDCARD)%bool
       = true
    /\ (Grammar.scope m = Some "next-line" ->
        exists l, Ast.loc (argNode call) = Some l
                  /\ Ast.line (Ast.start l) = 12).
Proof.
  apply (reasons_come_from_disable_directives
           [mkProcessCall (nodeAt 3 [" Stryker disable all: legacy"]) []
              "src/app.js";
            mkProcessCall (nodeAt 9 [" Stryker restore StringLiteral"]) []
              "src/app.js"]
           12 "BooleanLiteral" "legacy").
  reflexivity.
Defined.

(** ** What follows the names *)

Lemma names_then_other_is_not_scope (names : string) (c : ascii) (t : string) :
  Js.allChars Js.isNameChar names = true ->
  Js.isNameChar c = false ->
  c <> "-"%char ->
  Js.dropPrefix "next-line" (names ++ String c t) = None.
Proof.
  intros H Hc Hd.
  destruct names as [|c1 [|c2 [|c3 [|c4 [|c5 r]]]]];
    cbn [append Js.dropPrefix];
    repeat match goal with
           | |- context [Ascii.eqb ?a ?b] =>
               let E := fresh "E" in
               destruct (Ascii.eqb a b) eqn:E; [|reflexivity];
               apply Ascii.eqb_eq in E; try subst b
           end;
    try reflexivity;
    try (cbv in Hc; discriminate Hc);
    try (exfalso; apply Hd; reflexivity).
  cbv in H. discriminate H.
Qed.

Lemma exec_names_tail (lead kind : string) (nextLine : bool) (names : string)
    (c : ascii) (t : string) :
  Js.allChars Js.isSpace lead = true ->
  (String.length lead <= 1)%nat ->
  kind = "disable" \/ kind = "restore" ->
  names <> "" ->
  Js.allChars Js.isNameChar names = true ->
  Js.isNameChar c = false ->
  c <> "-"%char ->
  Grammar.exec
    (lead ++ "Stryker " ++ kind ++ (if nextLine then " next-line" else "")
     ++ " " ++ names ++ String c t)
  = Some (Grammar.mkMatch kind (if nextLine then Some "next-line" else None)
            names (Grammar.matchReason (String c t))).
Proof.
  intros Hl Hlen Hk Hne Hn Hc Hd.
  assert (M : forall sc,
            Grammar.matchMutators kind sc (" " ++ names ++ String c t)
            = Some (Grammar.mkMatch kind sc names
                      (Grammar.matchReason (String c t)))).
  { intros sc. unfold Grammar.matchMutators.
    rewrite dropPrefix_app, (span_app_stop _ _ _ _ Hn Hc).
    destruct names; [contradiction|reflexivity]. }
  assert (Sc : Grammar.matchScope kind
                 ((if nextLine then " next-line" else "") ++ " " ++ names
                  ++ String c t)
               = Some (Grammar.mkMatch kind
                         (if nextLine then Some "next-line" else None) names
                         (Grammar.matchReason (String c t)))).
  { unfold Grammar.matchScope. destruct nextLine.
    - rewrite dropPrefix_app, M. reflexivity.
    - change ("" ++ ?x) with x.
      change (Js.dropPrefix " next-line" (" " ++ ?x))
        with (Js.dropPrefix "next-line" x).
      rewrite (names_then_other_is_not_scope _ _ _ Hn Hc Hd). apply M. }
  assert (S : Grammar.matchStryker
                ("Stryker " ++ kind ++ (if nextLine then " next-line" else "")
                 ++ " " ++ names ++ String c t)
              = Some (Grammar.mkMatch kind
                        (if nextLine then Some "next-line" else None) names
                        (Grammar.matchReason (String c t)))).
  { unfold Grammar.matchStryker. rewrite dropPrefix_app.
    unfold Grammar.matchDirectiveType.
    destruct Hk as [-> | ->].
    - rewrite dropPrefix_app, Sc. reflexivity.
    - change (Js.dropPrefix "disable" ("restore" ++ ?x)) with (@None string).
      rewrite dropPrefix_app, Sc. reflexivity. }
  destruct lead as [|a [|a' lead]].
  - change ("" ++ ?x) with x. rewrite <- S. unfold Grammar.exec.
    change (match "Stryker " ++ ?x with
            | "" => None
            | String c r => if Js.isSpace c then Grammar.matchStryker r else None
            end) with (@None Grammar.Match).
    reflexivity.
  - cbn [Js.allChars] in Hl. apply andb_prop in Hl as [Ha _].
    change (String a "" ++ ?x) with (String a x).
    unfold Grammar.exec. cbv beta iota. rewrite Ha, S. reflexivity.
  - simpl in Hlen. lia.
Qed.

(** X20. What follows the names and does not start with a colon is not
    read: when the names end at a character that is neither in their class
    nor a colon nor a hyphen, the directive is matched with those names and
    with no reason, even if a colon and a text come later. *)
Theorem exec_ignores_text_without_colon (lead kind : string) (nextLine : bool)
    (names : string) (c : ascii) (t : string) :
  Js.allChars Js.isSpace lead = true ->
  (String.length lead <= 1)%nat ->
  kind = "disable" \/ kind = "restore" ->
  names <> "" ->
  Js.allChars Js.isNameChar names = true ->
  Js.isNameChar c = false ->
  c <> "-"%char ->
  c <> ":"%char ->
  Grammar.exec
    (lead ++ "Stryker " ++ kind ++ (if nextLine then " next-line" else "")
     ++ " " ++ names ++ String c t)
  = Some (Grammar.mkMatch kind (if nextLine then Some "next-line" else None)
            names None).
Proof.
  intros Hl Hlen Hk Hne Hn Hc Hd Hcolon.
  rewrite (exec_names_tail lead kind nextLine names c t Hl Hlen Hk Hne Hn Hc Hd).
  unfold Grammar.matchReason, Js.code.
  destruct (N.eqb (N_of_ascii c) 58) eqn:E; [|reflexivity].
  exfalso. apply Hcolon. apply N.eqb_eq in E.
  rewrite <- (ascii_N_embedding c), E. reflexivity.
Qed.

Lemma exec_ignores_text_without_colon_witness :
  Grammar.exec " Stryker disable StringLiteral (see the issue): flaky"
  = Some (Grammar.mkMatch "disable" None "StringLiteral " None).
Proof.
  apply (exec_ignores_text_without_colon " " "disable" false "StringLiteral "
           "("%char "see the issue): flaky");
    try reflexivity; try discriminate.
  left. reflexivity.
Defined.

(** X21. Of a reason that runs over several lines only the first line is
    kept: the fourth group stops at the first line terminator. *)
Theorem exec_reason_stops_at_line_end (lead kind : string) (nextLine : bool)
    (names reason : string) (terminator : ascii) (t : string) :
  Js.allChars Js.isSpace lead = true ->
  (String.length lead <= 1)%nat ->
  kind = "disable" \/ kind = "restore" ->
  names <> "" ->
  Js.allChars Js.isNameChar names = true ->
  reason <> "" ->
  Js.allChars Js.isDot reason = true ->
  Js.isLineTerminator terminator = true ->
  Grammar.exec
    (lead ++ "Stryker " ++ kind ++ (if nextLine then " next-line" else "")
     ++ " " ++ names ++ ":" ++ reason ++ String terminator t)
  = Some (Grammar.mkMatch kind (if nextLine then Some "next-line" else None)
            names (Some reason)).
Proof.
  intros Hl Hlen Hk Hne Hn Hr Hdot Ht.
  change (":" ++ reason ++ String terminator t)
    with (String ":" (reason ++ String terminator t)).
  rewrite (exec_names_tail lead kind nextLine names ":" _ Hl Hlen Hk Hne Hn)
    by (reflexivity || discriminate).
  unfold Grammar.matchReason. change (N.eqb (Js.code ":") 58) with true.
  cbv beta iota.
  rewrite (span_app_stop Js.isDot reason terminator t Hdot)
    by (unfold Js.isDot; rewrite Ht; reflexivity).
  cbn [fst]. destruct reason; [contradiction|reflexivity].
Qed.

Lemma exec_reason_stops_at_line_end_witness :
  Grammar.exec (" Stryker disable all: generated code" ++ LF ++ " do not edit")
  = Some (Grammar.mkMatch "disable" None "all" (Some " generated code")).
Proof.
  apply (exec_reason_stops_at_line_end " " "disable" false "all"
           " generated code" (ascii_of_N 10) " do not edit");
    try reflexivity; try discriminate.
  left. reflexivity.
Defined.

(** * Directives anywhere among the comments of a node *)

(** ** The chain a call builds, rule by rule *)

Lemma isNextLine_true (scope : option string) :
  isNextLine scope = true -> scope = Some "next-line".
Proof.
  destruct scope as [s|]; [|discriminate]. cbn [isNextLine].
  intros H. apply String.eqb_eq in H. rewrite H. reflexivity.
Qed.

Lemma matchesOf_middle cs1 c cs2 m :
  Grammar.exec c = Some m ->
  matchesOf (cs1 ++ Ast.mkComment c :: cs2)%list
  = (matchesOf cs1 ++ m :: matchesOf cs2)%list.
Proof.
  intros H. rewrite matchesOf_app. cbn [matchesOf Ast.value]. rewrite H.
  reflexivity.
Qed.

Lemma forEachMatch_normal_if node allMutators originFileName ms :
  Forall (fun m => Grammar.scope m = Some "next-line" -> Ast.loc node <> None)
    ms ->
  forall st,
  exists st', forEachMatch node allMutators originFileName ms st = Normal st'.
Proof.
  induction 1 as [|m rest Hm _ IH]; intros [this collector].
  - eexists. reflexivity.
  - cbn [forEachMatch]. unfold applyDirective.
    destruct (pushRule _ _ _ _ _ _) as [rule|] eqn:E; [apply IH|].
    apply pushRule_none in E as [E1 E2]. apply isNextLine_true in E1.
    exfalso. exact (Hm E1 E2).
Qed.

Lemma forEachMatch_split node allMutators originFileName ms1 m ms2 st st' :
  forEachMatch node allMutators originFileName (ms1 ++ m :: ms2)%list st
  = Normal st' ->
  exists st1 st2,
    forEachMatch node allMutators originFileName ms1 st = Normal st1
    /\ applyDirective node allMutators originFileName m st1 = Normal st2
    /\ forEachMatch node allMutators originFileName ms2 st2 = Normal st'.
Proof.
  rewrite forEachMatch_app.
  destruct (forEachMatch node allMutators originFileName ms1 st) as [st1|];
    [|discriminate].
  cbn [forEachMatch].
  destruct (applyDirective node allMutators originFileName m st1) as [st2|]
    eqn:A; [|discriminate].
  intros H. exists st1, st2. split; [reflexivity|]. split; [exact A|exact H].
Qed.

Lemma forEachMatch_links node allMutators originFileName ms this collector
    this' collector' :
  Forall (fun m =>
            (Grammar.directiveType m = "disable"
             \/ Grammar.directiveType m = "restore")
            /\ (Grammar.scope m = None \/ Grammar.scope m = Some "next-line"))
         ms ->
  forEachMatch node allMutators originFileName ms (this, collector)
  = Normal (this', collector') ->
  nthPrevious (length ms) (currentIgnoreRule this')
  = Some (currentIgnoreRule this).
Proof.
  intros G H.
  destruct (forEachMatch_grows node allMutators originFileName ms G this
              collector) as [k [_ [Hp [_ Hn]]]].
  rewrite H in Hp, Hn. cbn [stateOf fst isNormal] in Hp, Hn.
  rewrite <- (Hn eq_refl). exact Hp.
Qed.

Lemma forEachMatch_chainRules node allMutators originFileName ms :
  Forall (fun m =>
            (Grammar.directiveType m = "disable"
             \/ Grammar.directiveType m = "restore")
            /\ (Grammar.scope m = None \/ Grammar.scope m = Some "next-line"))
         ms ->
  forall this collector this' collector',
  forEachMatch node allMutators originFileName ms (this, collector)
  = Normal (this', collector') ->
  chainRules (currentIgnoreRule this')
  = (rev (map (entryOf node) ms) ++ chainRules (currentIgnoreRule this))%list.
Proof.
  induction 1 as [|m rest [Hty _] _ IH]; intros this collector this' collector' H.
  - cbn [forEachMatch] in H. injection H as <- _. reflexivity.
  - cbn [forEachMatch] in H.
    destruct (applyDirective node allMutators originFileName m
                (this, collector)) as [[this1 collector1]|] eqn:A;
      [|discriminate].
    apply applyDirective_inv in A as [P _].
    pose proof (pushRule_shape _ _ _ _ _ _ _ Hty P) as [E _].
    rewrite (IH _ _ _ _ H). cbn [map rev]. rewrite <- app_assoc. cbn [app].
    rewrite E. reflexivity.
Qed.

Lemma nthPrevious_chainRules (xs ys : list (list string * option Z * IgnoreReason))
    (rule : Rule) :
  chainRules rule = (xs ++ ys)%list ->
  exists rule',
    nthPrevious (length xs) rule = Some rule' /\ chainRules rule' = ys.
Proof.
  revert rule. induction xs as [|x xs IH]; intros rule H.
  - exists rule. split; [reflexivity|exact H].
  - destruct rule as [|names l r prev]; [discriminate|].
    cbn [chainRules app] in H. injection H as _ H.
    cbn [length nthPrevious Rule.previousRuleOf]. exact (IH prev H).
Qed.

Lemma chainRules_head (rule : Rule) names l r rest :
  chainRules rule = (names, l, r) :: rest ->
  exists previous, rule = IgnoreRule names l r previous
                   /\ chainRules previous = rest.
Proof.
  destruct rule as [|names' l' r' prev]; [discriminate|].
  cbn [chainRules]. intros H. injection H as -> -> -> <-.
  exists prev. split; reflexivity.
Qed.

Lemma firstn_length_app {A : Type} (xs ys : list A) :
  firstn (length xs) (xs ++ ys)%list = xs.
Proof.
  induction xs as [|x xs IH]; [reflexivity|].
  cbn [length app firstn]. rewrite IH. reflexivity.
Qed.

Lemma nthPrevious_compose (k j : nat) (rule rule1 rule0 : Rule) :
  nthPrevious k rule = Some rule1 ->
  nthPrevious j rule1 = Some rule0 ->
  nthPrevious (j + k) rule = Some rule0.
Proof.
  revert rule. induction k as [|k IH]; intros rule H1 H0.
  - cbn [nthPrevious] in H1. injection H1 as ->.
    rewrite Nat.add_0_r. exact H0.
  - rewrite <- plus_n_Sm. cbn [nthPrevious] in H1 |- *.
    destruct (Rule.previousRuleOf rule) as [p|]; [|discriminate].
    exact (IH p H1 H0).
Qed.

(** A query passes through the newer rules that do not match it. *)
Lemma answer_through_newer (k : nat) (head rule : Rule) (q : string) (line : Z) :
  nthPrevious k head = Some rule ->
  Forall (fun entry => entryMatches q line entry = false)
    (firstn k (chainRules head)) ->
  Rule.findIgnoreReason head q line = Rule.findIgnoreReason rule q line.
Proof.
  revert head. induction k as [|k IH]; intros head H F.
  - cbn [nthPrevious] in H. injection H as ->. reflexivity.
  - destruct head as [|names l r prev]; [discriminate|].
    cbn [nthPrevious Rule.previousRuleOf] in H.
    cbn [chainRules firstn] in F. inversion F as [|? ? Hm F']; subst.
    rewrite (findIgnoreReason_skip names l r prev q line Hm).
    exact (IH prev H F').
Qed.

(** The answer of an instance whose chain holds [rule] under [k] newer
    rules, none of which matches the query. *)
Lemma rule_answers_later (later : t) (k : nat) (rule : Rule) (line : Z)
    (mutatorName : string) :
  nthPrevious k (currentIgnoreRule later) = Some rule ->
  Rule.ruleMatches rule (Js.toLowerCase mutatorName) line = true ->
  Forall (fun entry => entryMatches (Js.toLowerCase mutatorName) line entry = false)
    (firstn k (chainRules (currentIgnoreRule later))) ->
  ignoreReasonAt later line mutatorName = Rule.ruleEffect rule.
Proof.
  intros H M F.
  unfold ignoreReasonAt, DirectiveBookkeeper.findIgnoreReason. cbn [fst].
  rewrite (answer_through_newer _ _ _ _ _ H F).
  exact (findIgnoreReason_match _ _ _ M).
Qed.

Lemma process_normal_if this node comments allMutators collector originFileName :
  Ast.leadingComments node = Some comments ->
  Forall (fun m => Grammar.scope m = Some "next-line" -> Ast.loc node <> None)
    (matchesOf comments) ->
  exists this' collector',
    processStrykerDirectives this node allMutators collector originFileName
    = Normal (this', collector').
Proof.
  intros Hn F. unfold processStrykerDirectives. rewrite Hn.
  destruct (forEachMatch_normal_if node allMutators originFileName _ F
              (this, collector)) as [[this' collector'] H].
  exists this', collector'. exact H.
Qed.

(** What a call that completes normally has done for the directive [c] of
    the node, whatever comments come before and after it. *)
Lemma directive_in_node
    this node cs1 c cs2 m allMutators collector originFileName this' collector' :
  Ast.leadingComments node = Some (cs1 ++ Ast.mkComment c :: cs2)%list ->
  Grammar.exec c = Some m ->
  processStrykerDirectives this node allMutators collector originFileName
  = Normal (this', collector') ->
  exists previous,
    nthPrevious (length (matchesOf cs2)) (currentIgnoreRule this')
    = Some (IgnoreRule (mutatorNamesOf (Grammar.mutators m))
              (if isNextLine (Grammar.scope m)
               then option_map (fun l => Ast.line (Ast.start l)) (Ast.loc node)
               else None)
              (if String.eqb (Grammar.directiveType m) "disable"
               then Some (reasonOf (Grammar.optionalReason m)) else None)
              previous)
    /\ nthPrevious (length (matchesOf cs1)) previous
       = Some (currentIgnoreRule this)
    /\ (isNextLine (Grammar.scope m) = true -> Ast.loc node <> None)
    /\ collector'
       = (collector
          ++ flat_map (diagnosticsOf node allMutators originFileName)
               (matchesOf cs1)
          ++ diagnosticsOf node allMutators originFileName m
          ++ flat_map (diagnosticsOf node allMutators originFileName)
               (matchesOf cs2))%list.
Proof.
  intros Hn He R. unfold processStrykerDirectives in R.
  rewrite Hn, (matchesOf_middle _ _ _ _ He) in R.
  apply forEachMatch_split in R
    as [[this1 collector1] [[this2 collector2] [R1 [R2 R3]]]].
  pose proof (forEachMatch_links _ _ _ _ _ _ _ _ (matchesOf_groups cs1) R1) as L1.
  pose proof (forEachMatch_links _ _ _ _ _ _ _ _ (matchesOf_groups cs2) R3) as L3.
  apply forEachMatch_reports in R1. apply forEachMatch_reports in R3.
  apply applyDirective_inv in R2 as [P C2].
  destruct (exec_groups _ _ He) as [Hty _].
  pose proof (pushRule_shape _ _ _ _ _ _ _ Hty P) as [E Hloc].
  exists (currentIgnoreRule this1). rewrite <- E.
  split; [exact L3|]. split; [exact L1|]. split; [exact Hloc|].
  rewrite R3, C2, reportUnused_filter, R1.
  unfold diagnosticsOf at 3. rewrite <- !app_assoc. reflexivity.
Qed.

Lemma processAll_chainRules (calls : list ProcessCall) :
  neverThrows calls ->
  forall st,
  chainRules (currentIgnoreRule (fst (processAll calls st)))
  = (rev (map (fun d => entryOf (fst d) (snd d)) (directivesIn calls))
     ++ chainRules (currentIgnoreRule (fst st)))%list.
Proof.
  induction calls as [|call rest IH]; intros N st; [reflexivity|].
  unfold neverThrows in N. cbn [directivesIn flat_map] in N.
  apply Forall_app in N as [N1 N2].
  cbn [processAll]. rewrite (IH N2).
  cbn [directivesIn flat_map]. rewrite map_app, rev_app_distr, <- app_assoc.
  f_equal. rewrite map_map. cbn [fst snd].
  rewrite Forall_map in N1. cbn [fst snd] in N1.
  unfold processStrykerDirectives.
  destruct (Ast.leadingComments (argNode call)) as [comments|];
    [|reflexivity].
  destruct st as [this collector].
  destruct (forEachMatch_normal_if (argNode call) (argAllMutators call)
              (argOriginFileName call) _ N1 (this, collector))
    as [[this' collector'] H].
  cbn [fst snd]. rewrite H. cbn [stateOf fst].
  exact (forEachMatch_chainRules _ _ _ _ (matchesOf_groups comments) _ _ _ _ H).
Qed.

(** The directive that decides a query after a sequence of calls: the rule
    of [d] lies under as many rules as directives came after it, and when
    none of those matches the query the answer is the one this rule gives. *)
Lemma newest_directive_decides (calls : list ProcessCall) st older d newer
    (mutatorName : string) (line : Z) :
  neverThrows calls ->
  directivesIn calls = (older ++ d :: newer)%list ->
  Forall (fun d' => directiveMatches (fst d') (snd d') mutatorName line = false)
    newer ->
  exists rule,
    nthPrevious (length newer) (currentIgnoreRule (fst (processAll calls st)))
    = Some rule
    /\ chainRules rule
       = entryOf (fst d) (snd d)
         :: (rev (map (fun d => entryOf (fst d) (snd d)) older)
             ++ chainRules (currentIgnoreRule (fst st)))%list
    /\ ignoreReasonAt (fst (processAll calls st)) line mutatorName
       = Rule.findIgnoreReason rule (Js.toLowerCase mutatorName) line.
Proof.
  intros N D F.
  pose proof (processAll_chainRules calls N st) as C.
  rewrite D, map_app in C. cbn [map] in C.
  rewrite rev_app_distr in C. cbn [rev] in C. rewrite <- !app_assoc in C.
  cbn [app] in C.
  destruct (nthPrevious_chainRules _ _ _ C) as [rule [Hp Hc]].
  assert (Len : length (rev (map (fun d => entryOf (fst d) (snd d)) newer))
                = length newer)
    by (rewrite length_rev, length_map; reflexivity).
  exists rule. rewrite <- Len. split; [exact Hp|]. split; [exact Hc|].
  unfold ignoreReasonAt, DirectiveBookkeeper.findIgnoreReason. cbn [fst].
  apply (answer_through_newer _ _ _ _ _ Hp).
  rewrite C, firstn_length_app.
  apply Forall_rev. apply Forall_map.
  eapply Forall_impl; [|exact F]. intros d' H. exact H.
Qed.

(** Closed side conditions of the examples. *)
Ltac no_directive_throws :=
  vm_compute;
  repeat first [ apply Forall_nil
               | apply Forall_cons; [intros; congruence|] ].

Ltac none_matches :=
  repeat first [ apply Forall_nil | apply Forall_cons; [reflexivity|] ].

(** ** Override and restore *)

(** C1. Whatever calls came before and however the comments are spread
    over the nodes, stacked on one node or on two: when the last two
    directives processed are a file-wide [disable all] and then a file-wide
    [restore StringLiteral], a query for [StringLiteral] at any line is not
    suppressed, the restore rule at the head matching it and answering with no
    reason although its predecessor, the disable rule, matches it too and
    would suppress it, while a query for [BooleanLiteral] passes the restore
    rule and is suppressed with the reason of the disable rule. *)
Theorem restore_shadows_older_disable
    (calls : list ProcessCall) this0 collector0 older node1 m1 node2 m2 line :
  directivesIn calls = (older ++ [(node1, m1); (node2, m2)])%list ->
  neverThrows calls ->
  Grammar.directiveType m1 = "disable" ->
  Grammar.scope m1 = None ->
  mutatorNamesOf (Grammar.mutators m1) = ["all"] ->
  Grammar.directiveType m2 = "restore" ->
  Grammar.scope m2 = None ->
  mutatorNamesOf (Grammar.mutators m2) = ["stringliteral"] ->
  exists previous,
    Rule.previousRuleOf
      (currentIgnoreRule (fst (processAll calls (this0, collector0))))
    = Some previous
    /\ Rule.ruleMatches
         (currentIgnoreRule (fst (processAll calls (this0, collector0))))
         (Js.toLowerCase "StringLiteral") line = true
    /\ Rule.ruleEffect
         (currentIgnoreRule (fst (processAll calls (this0, collector0))))
       = None
    /\ ignoreReasonAt (fst (processAll calls (this0, collector0))) line
         "StringLiteral" = None
    /\ Rule.findIgnoreReason previous (Js.toLowerCase "StringLiteral") line
       = Some (reasonOf (Grammar.optionalReason m1))
    /\ ignoreReasonAt (fst (processAll calls (this0, collector0))) line
         "BooleanLiteral"
       = Some (reasonOf (Grammar.optionalReason m1)).
Proof.
  intros D N Ht1 Hs1 Hm1 Ht2 Hs2 Hm2.
  assert (D' : directivesIn calls
               = ((older ++ [(node1, m1)]) ++ (node2, m2) :: [])%list)
    by (rewrite D, <- app_assoc; reflexivity).
  destruct (newest_directive_decides calls (this0, collector0) _ _ _
              "StringLiteral" line N D' (Forall_nil _)) as [rule [Hp [Hc _]]].
  cbn [length nthPrevious] in Hp. injection Hp as Hp.
  rewrite map_app, rev_app_distr in Hc. cbn [map rev app fst snd] in Hc.
  unfold entryOf in Hc.
  rewrite Ht1, Hs1, Hm1, Ht2, Hs2, Hm2 in Hc.
  cbn [isNextLine String.eqb Ascii.eqb Bool.eqb] in Hc.
  apply chainRules_head in Hc as [previous [E2 Hc]].
  apply chainRules_head in Hc as [previous0 [E1 _]].
  rewrite E2, E1 in Hp.
  unfold ignoreReasonAt, DirectiveBookkeeper.findIgnoreReason. cbn [fst].
  rewrite Hp. eexists. repeat split; reflexivity.
Qed.

Lemma restore_shadows_older_disable_witness :
  ignoreReasonAt
    (fst (processAll
            [mkProcessCall (nodeAt 2 [" Stryker disable next-line Foo"]) []
               "src/app.js";
             mkProcessCall
               (nodeAt 3 [" generated"; " Stryker disable all";
                          " Stryker restore StringLiteral"])
               [] "src/app.js"]
            (create, [])))
    9 "BooleanLiteral"
  = Some "Ignored using a comment".
Proof.
  destruct (restore_shadows_older_disable
              [mkProcessCall (nodeAt 2 [" Stryker disable next-line Foo"]) []
                 "src/app.js";
               mkProcessCall
                 (nodeAt 3 [" generated"; " Stryker disable all";
                            " Stryker restore StringLiteral"])
                 [] "src/app.js"]
              create []
              [(nodeAt 2 [" Stryker disable next-line Foo"],
                Grammar.mkMatch "disable" (Some "next-line") "Foo" None)]
              (nodeAt 3 [" generated"; " Stryker disable all";
                         " Stryker restore StringLiteral"])
              (Grammar.mkMatch "disable" None "all" None)
              (nodeAt 3 [" generated"; " Stryker disable all";
                         " Stryker restore StringLiteral"])
              (Grammar.mkMatch "restore" None "StringLiteral" None)
              9
              eq_refl ltac:(no_directive_throws)
              eq_refl eq_refl eq_refl eq_refl eq_refl eq_refl)
    as [previous [_ [_ [_ [_ [_ H]]]]]].
  exact H.
Defined.

(** ** Recency *)

(** C2. Among the directives processed over any sequence of calls, two
    disable directives whose rules both match the query, the second with no
    directive after it that matches the query: the answer is the reason of
    the second, the most recently pushed rule that matches.  The walk goes
    from the head through the newer rules, which do not match, stops at the
    second rule and never reaches the first, however many rules, matching or
    not, lie between or below them and whatever the scopes. *)
Theorem newest_matching_disable_wins
    (calls : list ProcessCall) this0 collector0 older node1 m1 middle node2 m2
    newer line mutatorName :
  directivesIn calls
  = (older ++ (node1, m1) :: middle ++ (node2, m2) :: newer)%list ->
  neverThrows calls ->
  Grammar.directiveType m1 = "disable" ->
  Grammar.directiveType m2 = "disable" ->
  directiveMatches node1 m1 mutatorName line = true ->
  directiveMatches node2 m2 mutatorName line = true ->
  Forall (fun d => directiveMatches (fst d) (snd d) mutatorName line = false)
    newer ->
  ignoreReasonAt (fst (processAll calls (this0, collector0))) line mutatorName
  = Some (reasonOf (Grammar.optionalReason m2))
  /\ exists rule2 rule1,
       nthPrevious (length newer)
         (currentIgnoreRule (fst (processAll calls (this0, collector0))))
       = Some rule2
       /\ nthPrevious (S (length middle)) rule2 = Some rule1
       /\ Rule.ruleMatches rule2 (Js.toLowerCase mutatorName) line = true
       /\ Rule.ruleEffect rule2 = Some (reasonOf (Grammar.optionalReason m2))
       /\ Rule.ruleMatches rule1 (Js.toLowerCase mutatorName) line = true
       /\ Rule.ruleEffect rule1 = Some (reasonOf (Grammar.optionalReason m1)).
Proof.
  intros D N Ht1 Ht2 M1 M2 F.
  assert (D' : directivesIn calls
               = ((older ++ (node1, m1) :: middle) ++ (node2, m2) :: newer)%list)
    by (rewrite D, <- app_assoc; reflexivity).
  destruct (newest_directive_decides calls (this0, collector0) _ _ _
              mutatorName line N D' F) as [rule2 [Hp [Hc A]]].
  cbn [fst snd] in Hc.
  rewrite map_app in Hc. cbn [map] in Hc. rewrite rev_app_distr in Hc.
  cbn [rev fst snd] in Hc. rewrite <- !app_assoc in Hc. cbn [app] in Hc.
  unfold entryOf at 1 in Hc.
  apply chainRules_head in Hc as [previous2 [E2 Hc]].
  destruct (nthPrevious_chainRules _ _ _ Hc) as [rule1 [Hp1 Hc1]].
  rewrite length_rev, length_map in Hp1.
  unfold entryOf at 1 in Hc1.
  apply chainRules_head in Hc1 as [previous1 [E1 _]].
  assert (R2 : Rule.ruleMatches rule2 (Js.toLowerCase mutatorName) line = true)
    by (rewrite E2; exact M2).
  assert (R1 : Rule.ruleMatches rule1 (Js.toLowerCase mutatorName) line = true)
    by (rewrite E1; exact M1).
  assert (Eff2 : Rule.ruleEffect rule2
                 = Some (reasonOf (Grammar.optionalReason m2)))
    by (rewrite E2; cbn [Rule.ruleEffect]; rewrite Ht2; reflexivity).
  assert (Eff1 : Rule.ruleEffect rule1
                 = Some (reasonOf (Grammar.optionalReason m1)))
    by (rewrite E1; cbn [Rule.ruleEffect]; rewrite Ht1; reflexivity).
  split.
  - rewrite A, (findIgnoreReason_match _ _ _ R2). exact Eff2.
  - exists rule2, rule1. split; [exact Hp|]. split.
    + rewrite E2. cbn [nthPrevious Rule.previousRuleOf]. exact Hp1.
    + auto.
Qed.

Lemma newest_matching_disable_wins_witness :
  ignoreReasonAt
    (fst (processAll
            [mkProcessCall
               (nodeAt 4 [" Stryker disable StringLiteral: first";
                          " Stryker restore BooleanLiteral"])
               [] "src/app.js";
             mkProcessCall
               (nodeAt 12 [" Stryker disable next-line all: second";
                           " Stryker disable next-line BooleanLiteral: other"])
               [] "src/app.js";
             mkProcessCall (nodeAt 13 [" Stryker restore next-line all"]) []
               "src/app.js"]
            (create, [])))
    12 "StringLiteral"
  = Some "second".
Proof.
  apply (newest_matching_disable_wins
           [mkProcessCall
              (nodeAt 4 [" Stryker disable StringLiteral: first";
                         " Stryker restore BooleanLiteral"])
              [] "src/app.js";
            mkProcessCall
              (nodeAt 12 [" Stryker disable next-line all: second";
                          " Stryker disable next-line BooleanLiteral: other"])
              [] "src/app.js";
            mkProcessCall (nodeAt 13 [" Stryker restore next-line all"]) []
              "src/app.js"]
           create [] []
           (nodeAt 4 [" Stryker disable StringLiteral: first";
                      " Stryker restore BooleanLiteral"])
           (Grammar.mkMatch "disable" None "StringLiteral" (Some " first"))
           [(nodeAt 4 [" Stryker disable StringLiteral: first";
                       " Stryker restore BooleanLiteral"],
             Grammar.mkMatch "restore" None "BooleanLiteral" None)]
           (nodeAt 12 [" Stryker disable next-line all: second";
                       " Stryker disable next-line BooleanLiteral: other"])
           (Grammar.mkMatch "disable" (Some "next-line") "all" (Some " second"))
           [(nodeAt 12 [" Stryker disable next-line all: second";
                        " Stryker disable next-line BooleanLiteral: other"],
             Grammar.mkMatch "disable" (Some "next-line") "BooleanLiteral"
               (Some " other"));
            (nodeAt 13 [" Stryker restore next-line all"],
             Grammar.mkMatch "restore" (Some "next-line") "all" None)]
           12 "StringLiteral");
    try reflexivity.
  - no_directive_throws.
  - none_matches.
Defined.

(** ** Scope of a pushed rule, for a directive anywhere on its node *)

(** C5, as amended. Whatever comments precede and follow a directive on its
    node, the call pushes one rule for it, under the rules of the directives
    that follow and on top of those that precede.  If the directive is
    next-line and the node starts at line L, that rule answers only queries
    at line L and hands every query at another line to its predecessor.  If
    the directive has no scope, the rule holds no line at all: it matches
    the queries of its mutators at every line number, the lines above the
    annotated node included, and it decides their answer in every later
    state of the chain for as long as no newer rule matches first. *)
Theorem pushed_rule_scope
    this node cs1 c cs2 m allMutators collector originFileName this' collector' :
  Ast.leadingComments node = Some (cs1 ++ Ast.mkComment c :: cs2)%list ->
  Grammar.exec c = Some m ->
  processStrykerDirectives this node allMutators collector originFileName
  = Normal (this', collector') ->
  exists rule previous,
    nthPrevious (length (matchesOf cs2)) (currentIgnoreRule this') = Some rule
    /\ Rule.previousRuleOf rule = Some previous
    /\ nthPrevious (length (matchesOf cs1)) previous
       = Some (currentIgnoreRule this)
    /\ (Grammar.scope m = Some "next-line" ->
        exists l,
          Ast.loc node = Some l
          /\ (forall mutatorName line,
                Rule.ruleMatches rule mutatorName line = true ->
                line = Ast.line (Ast.start l))
          /\ (forall mutatorName line,
                line <> Ast.line (Ast.start l) ->
                Rule.findIgnoreReason rule mutatorName line
                = Rule.findIgnoreReason previous mutatorName line)
          /\ (forall later k mutatorName,
                nthPrevious k (currentIgnoreRule later) = Some rule ->
                (Js.includes (mutatorNamesOf (Grammar.mutators m))
                   (Js.toLowerCase mutatorName)
                 || Js.includes (mutatorNamesOf (Grammar.mutators m)) WILDCARD)%bool
                = true ->
                Forall (fun entry =>
                          entryMatches (Js.toLowerCase mutatorName)
                            (Ast.line (Ast.start l)) entry = false)
                  (firstn k (chainRules (currentIgnoreRule later))) ->
                ignoreReasonAt later (Ast.line (Ast.start l)) mutatorName
                = Rule.ruleEffect rule))
    /\ (Grammar.scope m = None ->
        forall mutatorName line,
          (Js.includes (mutatorNamesOf (Grammar.mutators m))
             (Js.toLowerCase mutatorName)
           || Js.includes (mutatorNamesOf (Grammar.mutators m)) WILDCARD)%bool
          = true ->
          Rule.ruleMatches rule (Js.toLowerCase mutatorName) line = true
          /\ forall later k,
               nthPrevious k (currentIgnoreRule later) = Some rule ->
               Forall (fun entry =>
                         entryMatches (Js.toLowerCase mutatorName) line entry
                         = false)
                 (firstn k (chainRules (currentIgnoreRule later))) ->
               ignoreReasonAt later line mutatorName = Rule.ruleEffect rule).
Proof.
  intros Hn He R.
  destruct (directive_in_node _ _ _ _ _ _ _ _ _ _ _ Hn He R)
    as [previous [Hp [Hp1 [Hloc _]]]].
  eexists _, previous. split; [exact Hp|]. split; [reflexivity|].
  split; [exact Hp1|]. split.
  - intros Hs. rewrite Hs in *.
    cbn [isNextLine String.eqb Ascii.eqb Bool.eqb] in *.
    destruct (Ast.loc node) as [l|]; [|exfalso; apply Hloc; reflexivity].
    exists l. cbn [option_map Rule.ruleMatches Rule.ruleEffect].
    split; [reflexivity|]. split; [|split].
    + intros q line H. exact (matches_line _ _ _ _ H).
    + intros q line Hne. apply findIgnoreReason_skip.
      unfold Rule.matches. apply andb_false_intro1. apply Z.eqb_neq.
      intros Heq. apply Hne. symmetry. exact Heq.
    + intros later k q Hk Hq F.
      rewrite (rule_answers_later later k _ _ _ Hk); [reflexivity| |exact F].
      cbn [Rule.ruleMatches]. unfold Rule.matches.
      rewrite Z.eqb_refl, Hq. reflexivity.
  - intros Hs. rewrite Hs in *. cbn [isNextLine] in *.
    intros q line Hq. cbn [Rule.ruleMatches Rule.ruleEffect].
    rewrite matches_fileWide. split; [exact Hq|].
    intros later k Hk F.
    rewrite (rule_answers_later later k _ _ _ Hk); [reflexivity| |exact F].
    cbn [Rule.ruleMatches]. rewrite matches_fileWide. exact Hq.
Qed.

Lemma pushed_rule_scope_witness :
  ignoreReasonAt
    (mk (RestoreRule ["booleanliteral"] (Some 10)
           (IgnoreRule ["stringliteral"] None (Some "known issue")
              (IgnoreRule ["all"] (Some 10) (Some "first") rootRule))))
    2 "StringLiteral"
  = Some "known issue".
Proof.
  destruct (pushed_rule_scope create
              (nodeAt 10 [" Stryker disable next-line all: first";
                          " Stryker disable StringLiteral: known issue";
                          " explained below";
                          " Stryker restore next-line BooleanLiteral"])
              [Ast.mkComment " Stryker disable next-line all: first"]
              " Stryker disable StringLiteral: known issue"
              [Ast.mkComment " explained below";
               Ast.mkComment " Stryker restore next-line BooleanLiteral"]
              (Grammar.mkMatch "disable" None "StringLiteral"
                 (Some " known issue"))
              [mkNodeMutator "StringLiteral"; mkNodeMutator "BooleanLiteral"]
              [] "src/app.js"
              (mk (RestoreRule ["booleanliteral"] (Some 10)
                     (IgnoreRule ["stringliteral"] None (Some "known issue")
                        (IgnoreRule ["all"] (Some 10) (Some "first") rootRule))))
              [] eq_refl eq_refl eq_refl)
    as [rule [previous [Hp [_ [_ [_ Hfile]]]]]].
  vm_compute in Hp. injection Hp as <-.
  destruct (Hfile eq_refl "StringLiteral" 2 eq_refl) as [_ Hlater].
  apply (Hlater _ 1%nat); [reflexivity|none_matches].
Defined.

(** ** Reasons, for a directive anywhere on its node *)

(** C6. A disable directive whose comment leaves the fourth group of the
    grammar unset, whatever comments precede and follow it on its node: the
    call completes normally when every next-line directive of the node finds
    a location, and the rule pushed for the directive carries the default
    reason.  Every query this rule matches is answered with it, in the state
    the call leaves and in every later one, as long as no newer rule matches
    the query first. *)
Theorem default_reason
    this node cs1 c cs2 m allMutators collector originFileName :
  Ast.leadingComments node = Some (cs1 ++ Ast.mkComment c :: cs2)%list ->
  Grammar.exec c = Some m ->
  Grammar.directiveType m = "disable" ->
  Grammar.optionalReason m = None ->
  Forall (fun m' => Grammar.scope m' = Some "next-line" -> Ast.loc node <> None)
    (matchesOf (cs1 ++ Ast.mkComment c :: cs2)%list) ->
  exists this' collector' rule,
    processStrykerDirectives this node allMutators collector originFileName
    = Normal (this', collector')
    /\ nthPrevious (length (matchesOf cs2)) (currentIgnoreRule this') = Some rule
    /\ nthPrevious (S (length (matchesOf cs1))) rule
       = Some (currentIgnoreRule this)
    /\ Rule.ruleEffect rule = Some "Ignored using a comment"
    /\ forall later k line mutatorName,
         nthPrevious k (currentIgnoreRule later) = Some rule ->
         Rule.ruleMatches rule (Js.toLowerCase mutatorName) line = true ->
         Forall (fun entry =>
                   entryMatches (Js.toLowerCase mutatorName) line entry = false)
           (firstn k (chainRules (currentIgnoreRule later))) ->
         ignoreReasonAt later line mutatorName = Some "Ignored using a comment".
Proof.
  intros Hn He Hty Hr F.
  destruct (process_normal_if this node _ allMutators collector originFileName
              Hn F) as [this' [collector' R]].
  destruct (directive_in_node _ _ _ _ _ _ _ _ _ _ _ Hn He R)
    as [previous [Hp [Hp1 _]]].
  rewrite Hty, Hr in Hp. cbn [String.eqb Ascii.eqb Bool.eqb] in Hp.
  eexists this', collector', _. split; [exact R|]. split; [exact Hp|].
  split; [exact Hp1|]. split; [reflexivity|].
  intros later k line q Hk M Fk.
  rewrite (rule_answers_later later k _ _ _ Hk M Fk). reflexivity.
Qed.

Lemma default_reason_witness :
  ignoreReasonAt
    (mk (RestoreRule ["booleanliteral"] None
           (IgnoreRule ["stringliteral"] (Some 5)
              (Some "Ignored using a comment") rootRule)))
    5 "StringLiteral"
  = Some "Ignored using a comment".
Proof.
  destruct (default_reason create
              (nodeAt 5 [" see the changelog";
                         " Stryker disable next-line StringLiteral";
                         " Stryker restore BooleanLiteral"])
              [Ast.mkComment " see the changelog"]
              " Stryker disable next-line StringLiteral"
              [Ast.mkComment " Stryker restore BooleanLiteral"]
              (Grammar.mkMatch "disable" (Some "next-line") "StringLiteral" None)
              [mkNodeMutator "StringLiteral"; mkNodeMutator "BooleanLiteral"]
              [] "src/app.js"
              eq_refl eq_refl eq_refl eq_refl ltac:(no_directive_throws))
    as [this' [collector' [rule [R [Hp [_ [_ Hlater]]]]]]].
  vm_compute in R. injection R as <- _.
  vm_compute in Hp. injection Hp as <-.
  apply (Hlater _ 1%nat); [reflexivity|reflexivity|none_matches].
Defined.

(** ** One unknown name, for a directive anywhere on its node *)

(** C7, as amended. A disable directive with a single token that is not the
    wildcard in any letter case and that no registered mutator has as its
    name up to case, whatever comments precede and follow it on a node where
    every next-line directive finds a location: the call completes normally
    and the collector receives for this directive exactly one diagnostic,
    for that token, with the message [Unused 'Stryker disable' directive],
    between the diagnostics of the directives before it and of those after
    it. *)
Theorem single_unknown_name_reported_once
    this node cs1 c cs2 m raw allMutators collector originFileName :
  Ast.leadingComments node = Some (cs1 ++ Ast.mkComment c :: cs2)%list ->
  Grammar.exec c = Some m ->
  Grammar.directiveType m = "disable" ->
  Js.split (Grammar.mutators m) = [raw] ->
  Js.toLowerCase (Js.trim raw) <> WILDCARD ->
  isKnown allMutators (Js.trim raw) = false ->
  Forall (fun m' => Grammar.scope m' = Some "next-line" -> Ast.loc node <> None)
    (matchesOf (cs1 ++ Ast.mkComment c :: cs2)%list) ->
  exists this' call,
    processStrykerDirectives this node allMutators collector originFileName
    = Normal (this',
              (collector
               ++ flat_map (diagnosticsOf node allMutators originFileName)
                    (matchesOf cs1)
               ++ [call]
               ++ flat_map (diagnosticsOf node allMutators originFileName)
                    (matchesOf cs2))%list)
    /\ mutatorName (callMutant call) = Js.trim raw
    /\ mutantIgnoreReason (callMutant call) = "Unused 'Stryker disable' directive"
    /\ callNode call = node
    /\ nthPrevious (S (length (matchesOf cs1) + length (matchesOf cs2)))
         (currentIgnoreRule this')
       = Some (currentIgnoreRule this).
Proof.
  intros Hn He Hty Hsp Hw Hk F.
  destruct (process_normal_if this node _ allMutators collector originFileName
              Hn F) as [this' [collector' R]].
  destruct (directive_in_node _ _ _ _ _ _ _ _ _ _ _ Hn He R)
    as [previous [Hp [Hp1 [_ C]]]].
  assert (Hw' : String.eqb (Js.trim raw) WILDCARD = false).
  { apply String.eqb_neq. intros E. apply Hw. rewrite E. reflexivity. }
  assert (D : diagnosticsOf node allMutators originFileName m
              = [unusedCall "disable" node originFileName (Js.trim raw)]).
  { unfold diagnosticsOf, directivesOf. rewrite Hsp, Hty.
    cbn [map filter]. rewrite Hw'. cbn [negb filter]. rewrite Hk.
    reflexivity. }
  rewrite D in C.
  exists this', (unusedCall "disable" node originFileName (Js.trim raw)).
  rewrite R, C. split; [reflexivity|]. repeat split.
  change (S (length (matchesOf cs1) + length (matchesOf cs2)))
    with (S (length (matchesOf cs1)) + length (matchesOf cs2))%nat.
  apply (nthPrevious_compose _ _ _ _ _ Hp).
  cbn [nthPrevious Rule.previousRuleOf]. exact Hp1.
Qed.

Lemma single_unknown_name_reported_once_witness :
  let node := nodeAt 8 [" Stryker disable Foo"; " Stryker disable Typofied";
                        " Stryker restore next-line StringLiteral"] in
  exists this',
    processStrykerDirectives create node
      [mkNodeMutator "StringLiteral"; mkNodeMutator "BooleanLiteral"] []
      "src/app.js"
    = Normal (this',
              [unusedCall "disable" node "src/app.js" "Foo";
               unusedCall "disable" node "src/app.js" "Typofied"]).
Proof.
  intros node.
  destruct (single_unknown_name_reported_once create node
              [Ast.mkComment " Stryker disable Foo"]
              " Stryker disable Typofied"
              [Ast.mkComment " Stryker restore next-line StringLiteral"]
              (Grammar.mkMatch "disable" None "Typofied" None) "Typofied"
              [mkNodeMutator "StringLiteral"; mkNodeMutator "BooleanLiteral"]
              [] "src/app.js"
              eq_refl eq_refl eq_refl eq_refl
              ltac:(discriminate) eq_refl ltac:(no_directive_throws))
    as [this' [call [R [Hm [Hr [Hc _]]]]]].
  exists this'. rewrite R. do 2 f_equal.
  destruct call as [file n [id mfile orig name reason repl] offset].
  vm_compute in R. injection R as _ <- <- <- <- <- <- <- <- <-.
  reflexivity.
Defined.

(** ** A reason made of white space, for a directive anywhere on its node *)

(** C10, as amended. A disable directive whose text after the colon is
    white space only and starts with a character other than a line
    terminator, whatever comments precede and follow it on a node where
    every next-line directive finds a location: the fourth group captures
    white space, the reason is trimmed to the empty string and the rule
    pushed for the directive carries it in place of the default reason.
    Every query this rule matches is answered with the empty string, in the
    state the call leaves and in every later one, as long as no newer rule
    matches the query first. *)
Theorem blank_reason_is_empty
    this node cs1 cs2 lead nextLine names first rest allMutators collector
    originFileName :
  Ast.leadingComments node
  = Some (cs1
          ++ Ast.mkComment (disableComment lead nextLine names (String first rest))
          :: cs2)%list ->
  Js.allChars Js.isSpace lead = true ->
  (String.length lead <= 1)%nat ->
  names <> "" ->
  Js.allChars Js.isNameChar names = true ->
  Js.allChars Js.isSpace (String first rest) = true ->
  Js.isLineTerminator first = false ->
  Forall (fun m' => Grammar.scope m' = Some "next-line" -> Ast.loc node <> None)
    (matchesOf
       (cs1
        ++ Ast.mkComment (disableComment lead nextLine names (String first rest))
        :: cs2)%list) ->
  exists captured this' collector' rule,
    Grammar.exec (disableComment lead nextLine names (String first rest))
    = Some (Grammar.mkMatch "disable"
              (if nextLine then Some "next-line" else None) names
              (Some captured))
    /\ Js.trim captured = ""
    /\ processStrykerDirectives this node allMutators collector originFileName
       = Normal (this', collector')
    /\ nthPrevious (length (matchesOf cs2)) (currentIgnoreRule this') = Some rule
    /\ nthPrevious (S (length (matchesOf cs1))) rule
       = Some (currentIgnoreRule this)
    /\ Rule.ruleEffect rule = Some ""
    /\ forall later k line mutatorName,
         nthPrevious k (currentIgnoreRule later) = Some rule ->
         Rule.ruleMatches rule (Js.toLowerCase mutatorName) line = true ->
         Forall (fun entry =>
                   entryMatches (Js.toLowerCase mutatorName) line entry = false)
           (firstn k (chainRules (currentIgnoreRule later))) ->
         ignoreReasonAt later line mutatorName = Some "".
Proof.
  intros Hn Hl Hlen Hne Hnames Hws Hfirst F.
  pose proof (exec_disableComment lead nextLine names (String first rest)
                Hl Hlen Hne Hnames) as He.
  set (captured := fst (Js.span Js.isDot (String first rest))).
  assert (Hcap : Grammar.matchReason (String ":" (String first rest))
                 = Some captured).
  { unfold Grammar.matchReason. change (N.eqb (Js.code ":") 58) with true.
    cbv beta iota. subst captured. cbn [Js.span].
    replace (Js.isDot first) with true
      by (unfold Js.isDot; rewrite Hfirst; reflexivity).
    destruct (Js.span Js.isDot rest). reflexivity. }
  assert (Htrim : Js.trim captured = "").
  { apply trim_allSpace. apply allChars_span. exact Hws. }
  rewrite Hcap in He.
  destruct (process_normal_if this node _ allMutators collector originFileName
              Hn F) as [this' [collector' R]].
  destruct (directive_in_node _ _ _ _ _ _ _ _ _ _ _ Hn He R)
    as [previous [Hp [Hp1 _]]].
  cbn [Grammar.directiveType Grammar.optionalReason String.eqb Ascii.eqb
       Bool.eqb] in Hp.
  unfold reasonOf in Hp. rewrite Htrim in Hp.
  eexists captured, this', collector', _.
  split; [exact He|]. split; [exact Htrim|]. split; [exact R|].
  split; [exact Hp|]. split; [exact Hp1|]. split; [reflexivity|].
  intros later k line q Hk M Fk.
  rewrite (rule_answers_later later k _ _ _ Hk M Fk). reflexivity.
Qed.

Lemma blank_reason_is_empty_witness :
  ignoreReasonAt
    (mk (IgnoreRule ["bar"] (Some 4) (Some "Ignored using a comment")
           (IgnoreRule ["foo"] None (Some "") rootRule)))
    9 "Foo"
  = Some "".
Proof.
  destruct (blank_reason_is_empty create
              (nodeAt 4 [" Stryker disable Foo: ";
                         " Stryker disable next-line Bar"])
              [] [Ast.mkComment " Stryker disable next-line Bar"]
              " " false "Foo" " "%char "" [mkNodeMutator "Foo"] []
              "src/app.js"
              eq_refl eq_refl ltac:(reflexivity) ltac:(discriminate)
              eq_refl eq_refl eq_refl ltac:(no_directive_throws))
    as [captured [this' [collector' [rule [_ [_ [R [Hp [_ [_ Hlater]]]]]]]]]].
  vm_compute in R. injection R as <- _.
  vm_compute in Hp. injection Hp as <-.
  apply (Hlater _ 1%nat); [reflexivity|reflexivity|none_matches].
Defined.

(** ** What a restore and a disable directive leave, anywhere on a node *)

(** X17. A restore directive carries no reason, wherever it stands among
    the comments of its node: whatever text follows its colon, the rule
    pushed for it has no effect to give, and every query this rule matches
    is answered [undefined], whatever older rules say, in the state the call
    leaves and in every later one, as long as no newer rule matches the
    query first. *)
Theorem restore_has_no_reason
    this node cs1 c cs2 m allMutators collector originFileName this' collector' :
  Ast.leadingComments node = Some (cs1 ++ Ast.mkComment c :: cs2)%list ->
  Grammar.exec c = Some m ->
  Grammar.directiveType m = "restore" ->
  processStrykerDirectives this node allMutators collector originFileName
  = Normal (this', collector') ->
  exists rule,
    nthPrevious (length (matchesOf cs2)) (currentIgnoreRule this') = Some rule
    /\ nthPrevious (S (length (matchesOf cs1))) rule
       = Some (currentIgnoreRule this)
    /\ Rule.ruleEffect rule = None
    /\ forall later k line mutatorName,
         nthPrevious k (currentIgnoreRule later) = Some rule ->
         Rule.ruleMatches rule (Js.toLowerCase mutatorName) line = true ->
         Forall (fun entry =>
                   entryMatches (Js.toLowerCase mutatorName) line entry = false)
           (firstn k (chainRules (currentIgnoreRule later))) ->
         ignoreReasonAt later line mutatorName = None.
Proof.
  intros Hn He Hty R.
  destruct (directive_in_node _ _ _ _ _ _ _ _ _ _ _ Hn He R)
    as [previous [Hp [Hp1 _]]].
  rewrite Hty in Hp. cbn [String.eqb Ascii.eqb Bool.eqb] in Hp.
  eexists. split; [exact Hp|]. split; [exact Hp1|]. split; [reflexivity|].
  intros later k line q Hk M Fk.
  rewrite (rule_answers_later later k _ _ _ Hk M Fk). reflexivity.
Qed.

Lemma restore_has_no_reason_witness :
  ignoreReasonAt
    (mk (IgnoreRule ["booleanliteral"] None (Some "Ignored using a comment")
           (RestoreRule ["stringliteral"] None
              (IgnoreRule ["all"] None (Some "legacy") rootRule))))
    30 "StringLiteral"
  = None.
Proof.
  destruct (restore_has_no_reason
              (mk (IgnoreRule ["all"] None (Some "legacy") rootRule))
              (nodeAt 20 [" Stryker restore StringLiteral: fixed now";
                          " Stryker disable BooleanLiteral"])
              [] " Stryker restore StringLiteral: fixed now"
              [Ast.mkComment " Stryker disable BooleanLiteral"]
              (Grammar.mkMatch "restore" None "StringLiteral" (Some " fixed now"))
              [mkNodeMutator "StringLiteral"; mkNodeMutator "BooleanLiteral"]
              [] "src/app.js"
              (mk (IgnoreRule ["booleanliteral"] None
                     (Some "Ignored using a comment")
                     (RestoreRule ["stringliteral"] None
                        (IgnoreRule ["all"] None (Some "legacy") rootRule))))
              [] eq_refl eq_refl eq_refl eq_refl)
    as [rule [Hp [_ [_ Hlater]]]].
  vm_compute in Hp. injection Hp as <-.
  apply (Hlater _ 1%nat); [reflexivity|reflexivity|none_matches].
Defined.

(** X18. A disable directive always suppresses with a reason, never with
    none, wherever it stands among the comments of its node: the rule pushed
    for it carries the captured text without its surrounding white space,
    the default reason when nothing was captured, and every query this rule
    matches is answered with it, in the state the call leaves and in every
    later one, as long as no newer rule matches the query first. *)
Theorem disable_reason_is_trimmed
    this node cs1 c cs2 m allMutators collector originFileName this' collector' :
  Ast.leadingComments node = Some (cs1 ++ Ast.mkComment c :: cs2)%list ->
  Grammar.exec c = Some m ->
  Grammar.directiveType m = "disable" ->
  processStrykerDirectives this node allMutators collector originFileName
  = Normal (this', collector') ->
  exists rule,
    nthPrevious (length (matchesOf cs2)) (currentIgnoreRule this') = Some rule
    /\ nthPrevious (S (length (matchesOf cs1))) rule
       = Some (currentIgnoreRule this)
    /\ Rule.ruleEffect rule
       = Some (Js.trim match Grammar.optionalReason m with
                       | Some reason => reason
                       | None => "Ignored using a comment"
                       end)
    /\ forall later k line mutatorName,
         nthPrevious k (currentIgnoreRule later) = Some rule ->
         Rule.ruleMatches rule (Js.toLowerCase mutatorName) line = true ->
         Forall (fun entry =>
                   entryMatches (Js.toLowerCase mutatorName) line entry = false)
           (firstn k (chainRules (currentIgnoreRule later))) ->
         ignoreReasonAt later line mutatorName
         = Some (Js.trim match Grammar.optionalReason m with
                         | Some reason => reason
                         | None => "Ignored using a comment"
                         end).
Proof.
  intros Hn He Hty R.
  destruct (directive_in_node _ _ _ _ _ _ _ _ _ _ _ Hn He R)
    as [previous [Hp [Hp1 _]]].
  rewrite Hty in Hp. cbn [String.eqb Ascii.eqb Bool.eqb] in Hp.
  eexists. split; [exact Hp|]. split; [exact Hp1|]. split; [reflexivity|].
  intros later k line q Hk M Fk.
  rewrite (rule_answers_later later k _ _ _ Hk M Fk). reflexivity.
Qed.

Lemma disable_reason_is_trimmed_witness :
  ignoreReasonAt
    (mk (RestoreRule ["booleanliteral"] (Some 20)
           (IgnoreRule ["stringliteral"] None (Some "known issue") rootRule)))
    30 "StringLiteral"
  = Some "known issue".
Proof.
  destruct (disable_reason_is_trimmed create
              (nodeAt 20 [" why"; " Stryker disable StringLiteral:   known issue  ";
                          " Stryker restore next-line BooleanLiteral"])
              [Ast.mkComment " why"]
              " Stryker disable StringLiteral:   known issue  "
              [Ast.mkComment " Stryker restore next-line BooleanLiteral"]
              (Grammar.mkMatch "disable" None "StringLiteral"
                 (Some "   known issue  "))
              [mkNodeMutator "StringLiteral"; mkNodeMutator "BooleanLiteral"]
              [] "src/app.js"
              (mk (RestoreRule ["booleanliteral"] (Some 20)
                     (IgnoreRule ["stringliteral"] None (Some "known issue")
                        rootRule)))
              [] eq_refl eq_refl eq_refl eq_refl)
    as [rule [Hp [_ [_ Hlater]]]].
  vm_compute in Hp. injection Hp as <-.
  apply (Hlater _ 1%nat); [reflexivity|reflexivity|none_matches].
Defined.

(** ** Lifting every suppression *)

(** X22. A restore directive without scope, one of whose tokens is the
    wildcard in any case, lifts every suppression, wherever it stands among
    the comments of its node: the rule pushed for it matches every query, so
    that no mutator is suppressed at any line, whatever the chain held, in
    the state the call leaves and in every later one, as long as no newer
    rule matches the query first; when no directive follows it on its node,
    that is every query on the state the call leaves. *)
Theorem restore_all_lifts_everything
    this node cs1 c cs2 m token allMutators collector originFileName this'
    collector' :
  Ast.leadingComments node = Some (cs1 ++ Ast.mkComment c :: cs2)%list ->
  Grammar.exec c = Some m ->
  Grammar.directiveType m = "restore" ->
  Grammar.scope m = None ->
  In token (Js.split (Grammar.mutators m)) ->
  Js.toLowerCase (Js.trim token) = WILDCARD ->
  processStrykerDirectives this node allMutators collector originFileName
  = Normal (this', collector') ->
  exists rule,
    nthPrevious (length (matchesOf cs2)) (currentIgnoreRule this') = Some rule
    /\ (forall later k line mutatorName,
          nthPrevious k (currentIgnoreRule later) = Some rule ->
          Forall (fun entry =>
                    entryMatches (Js.toLowerCase mutatorName) line entry = false)
            (firstn k (chainRules (currentIgnoreRule later))) ->
          ignoreReasonAt later line mutatorName = None)
    /\ (matchesOf cs2 = [] ->
        forall line mutatorName, ignoreReasonAt this' line mutatorName = None).
Proof.
  intros Hn He Hty Hs Ht Hw R.
  destruct (directive_in_node _ _ _ _ _ _ _ _ _ _ _ Hn He R)
    as [previous [Hp _]].
  rewrite Hty, Hs in Hp. cbn [isNextLine String.eqb Ascii.eqb Bool.eqb] in Hp.
  assert (I : In WILDCARD (mutatorNamesOf (Grammar.mutators m))).
  { rewrite <- Hw. unfold mutatorNamesOf.
    apply (in_map (fun mutator => Js.toLowerCase (Js.trim mutator))).
    exact Ht. }
  assert (L : forall later k line q,
            nthPrevious k (currentIgnoreRule later)
            = Some (IgnoreRule (mutatorNamesOf (Grammar.mutators m)) None None
                      previous) ->
            Forall (fun entry =>
                      entryMatches (Js.toLowerCase q) line entry = false)
              (firstn k (chainRules (currentIgnoreRule later))) ->
            ignoreReasonAt later line q = None).
  { intros later k line q Hk Fk.
    rewrite (rule_answers_later later k _ _ _ Hk); [reflexivity| |exact Fk].
    cbn [Rule.ruleMatches]. rewrite matches_fileWide.
    rewrite (includes_In _ _ I). apply orb_true_r. }
  eexists. split; [exact Hp|]. split; [exact L|].
  intros E line q. rewrite E in Hp. cbn [length] in Hp.
  apply (L this' O line q Hp). constructor.
Qed.

Lemma restore_all_lifts_everything_witness :
  ignoreReasonAt
    (mk (RestoreRule ["all"] None
           (IgnoreRule ["booleanliteral"] None (Some "Ignored using a comment")
              (IgnoreRule ["stringliteral"] None (Some "legacy") rootRule))))
    41 "StringLiteral"
  = None.
Proof.
  destruct (restore_all_lifts_everything
              (mk (IgnoreRule ["stringliteral"] None (Some "legacy") rootRule))
              (nodeAt 40 [" Stryker disable BooleanLiteral";
                          " Stryker restore All"; " end of the block"])
              [Ast.mkComment " Stryker disable BooleanLiteral"]
              " Stryker restore All"
              [Ast.mkComment " end of the block"]
              (Grammar.mkMatch "restore" None "All" None) "All"
              [mkNodeMutator "StringLiteral"; mkNodeMutator "BooleanLiteral"]
              [] "src/app.js"
              (mk (RestoreRule ["all"] None
                     (IgnoreRule ["booleanliteral"] None
                        (Some "Ignored using a comment")
                        (IgnoreRule ["stringliteral"] None (Some "legacy")
                           rootRule))))
              [unusedCall "restore"
                 (nodeAt 40 [" Stryker disable BooleanLiteral";
                             " Stryker restore All"; " end of the block"])
                 "src/app.js" "All"]
              eq_refl eq_refl eq_refl eq_refl ltac:(left; reflexivity) eq_refl
              eq_refl)
    as [rule [_ [_ Hall]]].
  exact (Hall eq_refl 41 "StringLiteral").
Defined.
